(** * opencode-offline: the offline bundle pipeline, the offline path
    resolver and the request capture renderer.

    Shallow embedding of
      - script/download-offline-deps.ts      (module [DownloadDeps])
      - script/package-offline-bundle.ts     (module [PackageBundle])
      - packages/opencode/src/offline/index.ts           (module [Offline])
      - packages/opencode/src/session/request-capture.ts (module [RequestCapture])
    together with the fragments of the JavaScript runtime they rely on
    (modules [JS], [Path], [Json], [Sys]). *)

From Stdlib Require Import ZArith NArith Ascii String DecimalString.
From stdpp Require Import base option list gmap strings.

Set Warnings "-register-all".

Local Open Scope string_scope.
Local Open Scope list_scope.

(** ** JavaScript strings *)

Module JS.

(** Characters that cannot be typed inside a string literal. *)
Definition dq : string := String "034"%char EmptyString.
Definition nl : string := String "010"%char EmptyString.

(** [s.startsWith(p)] *)
Fixpoint startsWith (s p : string) : bool :=
  match p, s with
  | EmptyString, _ => true
  | String a p', String b s' => if Ascii.eqb a b then startsWith s' p' else false
  | String _ _, EmptyString => false
  end.

(** [s.includes(needle)] *)
Fixpoint includes (s needle : string) : bool :=
  startsWith s needle ||
  match s with
  | EmptyString => false
  | String _ s' => includes s' needle
  end.

(** [s.endsWith(suffix)]: some tail of [s] is [suffix]. *)
Fixpoint endsWith (s suffix : string) : bool :=
  String.eqb s suffix ||
  match s with
  | EmptyString => false
  | String _ s' => endsWith s' suffix
  end.



(** Truthiness of a string: only the empty string is falsy. *)
Definition truthy (s : string) : bool :=
  match s with EmptyString => false | String _ _ => true end.

(** Truthiness of a [string | undefined]. *)
Definition truthy_opt (o : option string) : bool :=
  match o with Some s => truthy s | None => false end.

(** [parts.join(sep)] *)
Fixpoint join (sep : string) (parts : list string) : string :=
  match parts with
  | [] => EmptyString
  | [x] => x
  | x :: rest => x +:+ sep +:+ join sep rest
  end.

(** [s.split(c)] for a one-character separator. *)
Fixpoint split (c : ascii) (s : string) : list string :=
  match s with
  | EmptyString => [EmptyString]
  | String a s' =>
      if Ascii.eqb a c then EmptyString :: split c s'
      else match split c s' with
           | x :: xs => String a x :: xs
           | [] => [String a EmptyString]
           end
  end.

(** [Array.prototype.find] *)
Fixpoint find {A} (p : A -> bool) (l : list A) : option A :=
  match l with
  | [] => None
  | x :: l' => if p x then Some x else find p l'
  end.

(** [String(n)] for a non-negative integer. *)
Definition string_of_N (n : N) : string :=
  NilEmpty.string_of_uint (N.to_uint n).

End JS.

(** ** [path.join] (POSIX flavour) *)

Module Path.

Definition slash : ascii := "/"%char.

Definition isAbsolute (p : string) : bool :=
  match p with String c _ => Ascii.eqb c slash | EmptyString => false end.

Definition trailingSeparator (p : string) : bool := JS.endsWith p "/".

(** One step of the segment normaliser; [res] is kept reversed (last
    segment first). *)
Definition norm_step (allowAboveRoot : bool) (res : list string) (seg : string)
  : list string :=
  if String.eqb seg EmptyString || String.eqb seg "." then res
  else if String.eqb seg ".." then
    match res with
    | top :: below =>
        if String.eqb top ".." then
          (if allowAboveRoot then seg :: res else res)
        else below
    | [] => if allowAboveRoot then [seg] else []
    end
  else seg :: res.

Definition normalize_segments (allowAboveRoot : bool) (segs : list string)
  : list string :=
  rev (fold_left (norm_step allowAboveRoot) segs []).

(** The normalised segments of a path. *)
Definition segments (p : string) : list string :=
  normalize_segments (negb (isAbsolute p)) (JS.split slash p).

Definition normalize (p : string) : string :=
  match p with
  | EmptyString => "."
  | _ =>
      let body := JS.join "/" (segments p) in
      match body with
      | EmptyString =>
          if isAbsolute p then "/"
          else if trailingSeparator p then "./" else "."
      | _ =>
          (if isAbsolute p then "/" else EmptyString)
            +:+ body +:+ (if trailingSeparator p then "/" else EmptyString)
      end
  end.

(** [path.join(...args)]: the non-empty arguments glued with "/" and
    normalised. *)
Definition join (args : list string) : string :=
  match filter (fun a => JS.truthy a = true) args with
  | [] => "."
  | parts => normalize (JS.join "/" parts)
  end.

(** [p] lies under [base]: same kind of path (absolute or relative) and
    the normalised segments of [base] lead to those of [p]. *)
Definition under (base p : string) : Prop :=
  isAbsolute base = isAbsolute p /\ segments base `prefix_of` segments p.

End Path.

(** ** packages/opencode/src/offline/index.ts *)

Module Offline.

(** The two members of [Flag] (../flag/flag) the resolver reads. *)
Record Flag := {
  OPENCODE_OFFLINE_MODE : bool;
  OPENCODE_OFFLINE_DEPS_PATH : option string;
}.

Section WithFlag.
Variable Flag : Flag.

Definition isEnabled : bool := OPENCODE_OFFLINE_MODE Flag.

Definition getDepsPath : option string := OPENCODE_OFFLINE_DEPS_PATH Flag.

Definition resolveBinary (name subpath : string) : option string :=
  let depsPath := getDepsPath in
  if negb isEnabled || negb (JS.truthy_opt depsPath) then None
  else Some (Path.join [default EmptyString depsPath; subpath; name]).

Definition resolveNpmPackage (pkg : string) : option string :=
  let depsPath := getDepsPath in
  if negb isEnabled || negb (JS.truthy_opt depsPath) then None
  else Some (Path.join [default EmptyString depsPath; "node_modules"; pkg]).

Definition resolveLspBinary (lspName binaryName : string) : option string :=
  let depsPath := getDepsPath in
  if negb isEnabled || negb (JS.truthy_opt depsPath) then None
  else Some (Path.join [default EmptyString depsPath; "lsp"; lspName; "bin"; binaryName]).
End WithFlag.

End Offline.

(** ** packages/opencode/src/session/request-capture.ts *)

Module RequestCapture.

Record CapturedRequest := {
  sessionID : string;
  timestamp : Z;
  url : string;
  method : string;
  headers : list (string * string);   (* Object.entries order *)
  body : string;
}.

(** In-memory storage of the last request per session. *)
Definition Store := gmap string CapturedRequest.

(** Every single quote becomes the four characters quote, backslash,
    quote, quote. *)
Fixpoint shellEscape (str : string) : string :=
  match str with
  | EmptyString => EmptyString
  | String c s' =>
      if Ascii.eqb c "'"%char then "'\''" +:+ shellEscape s'
      else String c (shellEscape s')
  end.

Definition capture (request : CapturedRequest) (requests : Store) : Store :=
  <[sessionID request := request]> requests.

Definition get (sessionID : string) (requests : Store) : option CapturedRequest :=
  requests !! sessionID.

Definition clear (sessionID : string) (requests : Store) : Store :=
  delete sessionID requests.

Record ToCurlOptions := { includeAuth : option bool }.

(** The default argument [options = {}]. *)
Definition noOptions : ToCurlOptions := {| includeAuth := None |}.




Definition separator : string := " \" +:+ JS.nl +:+ "  ".


End RequestCapture.

(** ** JSON values and JavaScript objects *)

Module Json.

(** Objects keep their properties in enumeration order. *)
Inductive json :=
| JNull
| JBool (b : bool)
| JNum (n : Z)
| JStr (s : string)
| JArr (items : list json)
| JObj (fields : list (string * json)).

(** [obj[key]] on a list of properties ([None] is [undefined]). *)
Fixpoint lookup (key : string) (fields : list (string * json)) : option json :=
  match fields with
  | [] => None
  | (k, v) :: rest => if String.eqb k key then Some v else lookup key rest
  end.

(** [obj[key] = v]: an existing property keeps its place, a new one is
    added last. *)
Fixpoint assign (key : string) (v : json) (fields : list (string * json))
  : list (string * json) :=
  match fields with
  | [] => [(key, v)]
  | (k, x) :: rest =>
      if String.eqb k key then (k, v) :: rest else (k, x) :: assign key v rest
  end.

Definition get (key : string) (j : json) : option json :=
  match j with JObj fields => lookup key fields | _ => None end.

Definition set (key : string) (v : json) (j : json) : json :=
  match j with JObj fields => JObj (assign key v fields) | _ => j end.

(** Truthiness of [value | undefined]. *)
Definition truthy (o : option json) : bool :=
  match o with
  | None | Some JNull | Some (JBool false) => false
  | Some (JNum n) => negb (n =? 0)%Z
  | Some (JStr s) => JS.truthy s
  | Some _ => true
  end.

Fixpoint index_from (n : N) (items : list json) : list (string * json) :=
  match items with
  | [] => []
  | x :: rest => (JS.string_of_N n, x) :: index_from (N.succ n) rest
  end.

Fixpoint chars_from (n : N) (s : string) : list (string * json) :=
  match s with
  | EmptyString => []
  | String c s' => (JS.string_of_N n, JStr (String c EmptyString)) :: chars_from (N.succ n) s'
  end.

(** [Object.entries(value)] *)
Definition entries (j : json) : list (string * json) :=
  match j with
  | JObj fields => fields
  | JArr items => index_from 0 items
  | JStr s => chars_from 0 s
  | _ => []
  end.

End Json.

(** ** The runtime the two scripts run on: file system, network,
    subprocesses, console, process exit *)

Module Sys.

(** A file-system entry; paths are the keys. *)
Inductive Node :=
| Dir
| File (content : string) (mode : N).

Record Error := { message : string }.

(** A release of a hosted repository, as the scripts type it. *)
Record Asset := { name : string; browser_download_url : string }.
Record Release := { tag_name : string; assets : list Asset }.

Record Response := {
  ok : bool;
  status : N;
  statusText : string;
  arrayBuffer : string;
  json : option Release;          (* [None]: the body does not parse *)
}.

(** A finished subprocess: what it left behind. *)
Record Proc := {
  exitCode : Z;
  stdout : string;
  stderr : string;
  files : list (string * Node);
}.

(** What the scripts read of [fs.Stats]. *)
Record Stats := { size : N; isDirectory : bool }.

Inductive Event :=
| EvFetch (url : string)
| EvSpawn (argv : list string)
| EvWrite (path : string) (content : string).

Record World := {
  fs : gmap string Node;
  events : list Event;       (* oldest first *)
  out : list string;         (* console.log *)
  err : list string;         (* console.error *)
}.

(** What the outside world answers. Every answer may depend on all that
    happened so far. *)
Record Platform := {
  net : string -> World -> option Response;       (* [None]: fetch rejects *)
  run : list string -> option string -> World -> Proc;
  clock : World -> string;                        (* new Date().toISOString() *)
  env : string -> option string;                  (* process.env *)
  JSON_stringify : Json.json -> string;           (* JSON.stringify(v, null, 2) *)
  JSON_parse : string -> option Json.json;        (* [None]: SyntaxError *)
}.

(** How a computation ends: a value, a thrown error, or [process.exit]. *)
Inductive Outcome (A : Type) :=
| Ok (a : A)
| Throw (e : Error)
| Exit (code : Z).
Arguments Ok {A} a.
Arguments Throw {A} e.
Arguments Exit {A} code.

Definition M (A : Type) : Type := World -> Outcome A * World.

Definition ret {A} (a : A) : M A := fun w => (Ok a, w).

Definition bind {A B} (m : M A) (f : A -> M B) : M B :=
  fun w =>
    match m w with
    | (Ok a, w') => f a w'
    | (Throw e, w') => (Throw e, w')
    | (Exit c, w') => (Exit c, w')
    end.

Definition throw {A} (msg : string) : M A :=
  fun w => (Throw {| message := msg |}, w).

Definition process_exit {A} (code : Z) : M A := fun w => (Exit code, w).

(** [m.catch(() => fallback)] *)
Definition catch {A} (m : M A) (handler : Error -> M A) : M A :=
  fun w =>
    match m w with
    | (Throw e, w') => handler e w'
    | other => other
    end.

Definition set_fs (f : gmap string Node) (w : World) : World :=
  {| fs := f; events := events w; out := out w; err := err w |}.

Definition emit (e : Event) (w : World) : World :=
  {| fs := fs w; events := events w ++ [e]; out := out w; err := err w |}.

Definition logged (line : string) (w : World) : World :=
  {| fs := fs w; events := events w; out := out w ++ [line]; err := err w |}.

Definition complained (line : string) (w : World) : World :=
  {| fs := fs w; events := events w; out := out w; err := err w ++ [line] |}.

Definition console_log (line : string) : M unit :=
  fun w => (Ok tt, logged line w).

Definition console_error (line : string) : M unit :=
  fun w => (Ok tt, complained line w).

(** *** Paths of the store *)

(** [p] is [d] or lies below it. *)
Definition below (d p : string) : bool :=
  String.eqb p d || JS.startsWith p (d +:+ "/").

(** The directories leading to [p], outermost first. *)
Fixpoint parents_from (acc : string) (s : string) : list string :=
  match s with
  | EmptyString => []
  | String c s' =>
      if Ascii.eqb c "/"%char
      then (if JS.truthy acc then [acc] else []) ++ parents_from (acc +:+ "/") s'
      else parents_from (acc +:+ String c EmptyString) s'
  end.

Definition parents (p : string) : list string := parents_from EmptyString p.

Definition is_file (f : gmap string Node) (p : string) : bool :=
  match f !! p with Some (File _ _) => true | _ => false end.

Definition add_dir (d : string) (f : gmap string Node) : gmap string Node :=
  match f !! d with Some _ => f | None => <[d := Dir]> f end.

Definition add_all (entries : list (string * Node)) (f : gmap string Node)
  : gmap string Node :=
  fold_left (fun acc e => <[e.1 := e.2]> acc) entries f.

(** The part of [p] after the directory [d], when [p] lies strictly
    below [d]. *)
Fixpoint strip (d p : string) : option string :=
  match d, p with
  | EmptyString, String c rest => if Ascii.eqb c "/"%char then Some rest else None
  | String a d', String b p' => if Ascii.eqb a b then strip d' p' else None
  | _, EmptyString => None
  end.

(** The entries of [f] below [src], re-rooted at [dst]. *)
Definition rerooted (src dst : string) (f : gmap string Node)
  : list (string * Node) :=
  omap (fun e => match strip src e.1 with
                 | Some rest => Some (dst +:+ "/" +:+ rest, e.2)
                 | None => None
                 end) (map_to_list f).

(** The names directly inside [d]. *)
Definition children (d : string) (f : gmap string Node) : list string :=
  omap (fun e => match strip d e.1 with
                 | Some rest => if JS.includes rest "/" then None else Some rest
                 | None => None
                 end) (map_to_list f).

Definition remove_tree (d : string) (f : gmap string Node) : gmap string Node :=
  filter (fun e => below d e.1 = false) f.

Section Primitives.
Variable P : Platform.

(** [await fetch(url)] *)
Definition fetch (url : string) : M Response :=
  fun w =>
    match net P url w with
    | Some r => (Ok r, emit (EvFetch url) w)
    | None => (Throw {| message := "fetch failed" |}, emit (EvFetch url) w)
    end.

(** [await response.json()] *)
Definition response_json (r : Response) : M Release :=
  match json r with
  | Some v => ret v
  | None => throw "SyntaxError: Failed to parse JSON"
  end.

(** [await Bun.write(dest, content)] *)
Definition Bun_write (dest content : string) : M unit :=
  fun w =>
    let mode := match fs w !! dest with Some (File _ m) => m | _ => 420%N end in
    (Ok tt, emit (EvWrite dest content) (set_fs (<[dest := File content mode]> (fs w)) w)).

(** [Bun.spawn(argv, { cwd })] followed by [await proc.exited]. *)
Definition Bun_spawn (argv : list string) (cwd : option string) : M Proc :=
  fun w =>
    let p := run P argv cwd w in
    (Ok p, emit (EvSpawn argv) (set_fs (add_all (files p) (fs w)) w)).

(** [new Date().toISOString()] *)
Definition now : M string := fun w => (Ok (clock P w), w).

(** [process.env[name]] *)
Definition process_env (name : string) : M (option string) := ret (env P name).

(** [await fs.rm(p, { recursive: true, force: true })] *)
Definition fs_rm (p : string) : M unit :=
  fun w => (Ok tt, set_fs (remove_tree p (fs w)) w).

(** [await fs.mkdir(p, { recursive: true })] *)
Definition fs_mkdir (p : string) : M unit :=
  fun w =>
    if existsb (is_file (fs w)) (parents p ++ [p])
    then (Throw {| message := "EEXIST: file already exists, mkdir '" +:+ p +:+ "'" |}, w)
    else (Ok tt, set_fs (add_dir p (fold_right add_dir (fs w) (parents p))) w).

(** [await fs.unlink(p)] *)
Definition fs_unlink (p : string) : M unit :=
  fun w =>
    match fs w !! p with
    | Some (File _ _) => (Ok tt, set_fs (delete p (fs w)) w)
    | _ => (Throw {| message := "ENOENT: no such file or directory, unlink '" +:+ p +:+ "'" |}, w)
    end.

(** [await fs.chmod(p, mode)] *)
Definition fs_chmod (p : string) (mode : N) : M unit :=
  fun w =>
    match fs w !! p with
    | Some (File c _) => (Ok tt, set_fs (<[p := File c mode]> (fs w)) w)
    | Some Dir => (Ok tt, w)
    | None => (Throw {| message := "ENOENT: no such file or directory, chmod '" +:+ p +:+ "'" |}, w)
    end.

(** [await fs.rename(from, to)] *)
Definition fs_rename (from to : string) : M unit :=
  fun w =>
    match fs w !! from with
    | Some node =>
        let moved := (to, node) :: rerooted from to (fs w) in
        (Ok tt, set_fs (add_all moved (remove_tree to (remove_tree from (fs w)))) w)
    | None => (Throw {| message := "ENOENT: no such file or directory, rename '" +:+ from +:+ "'" |}, w)
    end.

(** [await fs.copyFile(src, dest)] *)
Definition fs_copyFile (src dest : string) : M unit :=
  fun w =>
    match fs w !! src with
    | Some (File c m) => (Ok tt, set_fs (<[dest := File c m]> (fs w)) w)
    | _ => (Throw {| message := "ENOENT: no such file or directory, copyfile '" +:+ src +:+ "'" |}, w)
    end.

(** [await fs.readFile(p, "utf-8")] *)
Definition fs_readFile (p : string) : M string :=
  fun w =>
    match fs w !! p with
    | Some (File c _) => (Ok c, w)
    | _ => (Throw {| message := "ENOENT: no such file or directory, open '" +:+ p +:+ "'" |}, w)
    end.

(** [await fs.stat(p)] *)
Definition fs_stat (p : string) : M Stats :=
  fun w =>
    match fs w !! p with
    | Some (File c _) =>
        (Ok {| size := N.of_nat (String.length c); isDirectory := false |}, w)
    | Some Dir => (Ok {| size := 0; isDirectory := true |}, w)
    | None => (Throw {| message := "ENOENT: no such file or directory, stat '" +:+ p +:+ "'" |}, w)
    end.

(** [await fs.readdir(p)] *)
Definition fs_readdir (p : string) : M (list string) :=
  fun w =>
    match fs w !! p with
    | Some Dir => (Ok (children p (fs w)), w)
    | _ => (Throw {| message := "ENOENT: no such file or directory, scandir '" +:+ p +:+ "'" |}, w)
    end.

(** The shell line [cp -r src/* dst/]: every entry below [src] is
    copied below [dst]; an empty [src] matches nothing and fails. *)
Definition shell_cp_r (src dst : string) : M unit :=
  fun w =>
    match rerooted src dst (fs w) with
    | [] => (Throw {| message := "cp: no matches found: " +:+ src +:+ "/*" |}, w)
    | copies => (Ok tt, set_fs (add_all copies (fs w)) w)
    end.

(** The tail of both scripts:
    [main().catch(err => { console.error("Error:", err); process.exit(1) })].
    The result is the exit code of the process. *)
Definition run_script (main : M unit) : World -> Z * World :=
  fun w =>
    match main w with
    | (Ok _, w') => (0%Z, w')
    | (Throw e, w') =>
        (1%Z, snd (console_error ("Error: " +:+ message e) w'))
    | (Exit c, w') => (c, w')
    end.
End Primitives.

End Sys.

Declare Scope sys_scope.
Delimit Scope sys_scope with sys.
Notation "x <- c1 ;; c2" := (Sys.bind c1 (fun x => c2))
  (at level 100, c1 at next level, right associativity) : sys_scope.
Notation "c1 ;; c2" := (Sys.bind c1 (fun _ => c2))
  (at level 100, right associativity) : sys_scope.

(** ** script/download-offline-deps.ts *)

Module DownloadDeps.
Import Sys.
Local Open Scope sys_scope.

Definition DEPS_DIR : string := "dist/offline-deps".
Definition RIPGREP_VERSION : string := "14.1.1".

Record Components := {
  ripgrep : string;
  clangd : string;
  rustAnalyzer : string;
  npmPackages : list (string * Json.json);
}.

Record Manifest := {
  version : string;
  created : string;
  platform : string;
  arch : string;
  components : Components;
}.

(** The object literal handed to [JSON.stringify]. *)
Definition to_json (m : Manifest) : Json.json :=
  Json.JObj [
    ("version", Json.JStr (version m));
    ("created", Json.JStr (created m));
    ("platform", Json.JStr (platform m));
    ("arch", Json.JStr (arch m));
    ("components", Json.JObj [
      ("ripgrep", Json.JStr (ripgrep (components m)));
      ("clangd", Json.JStr (clangd (components m)));
      ("rustAnalyzer", Json.JStr (rustAnalyzer (components m)));
      ("npmPackages", Json.JObj (npmPackages (components m)))
    ])
  ].

(** The predicates handed to [release.assets.find]. *)
Definition isClangdAsset (tag : string) (a : Asset) : bool :=
  JS.includes (name a) "linux" && JS.includes (name a) tag && JS.endsWith (name a) ".zip".

Definition isRustAnalyzerAsset (a : Asset) : bool :=
  String.eqb (name a) "rust-analyzer-x86_64-unknown-linux-gnu.gz".

(** The "Find Linux asset" step of [downloadClangd]: the first asset of
    the release that passes, or the error. *)
Definition findClangdAsset (release : Release) : M Asset :=
  let tag := tag_name release in
  match JS.find (isClangdAsset tag) (assets release) with
  | None => throw "Could not find clangd Linux asset"
  | Some asset => ret asset
  end.

(** The "Find Linux x64 asset" step of [downloadRustAnalyzer]. *)
Definition findRustAnalyzerAsset (release : Release) : M Asset :=
  match JS.find isRustAnalyzerAsset (assets release) with
  | None => throw "Could not find rust-analyzer Linux asset"
  | Some asset => ret asset
  end.

Section Script.
Variable P : Platform.

Definition downloadFile (url dest : string) : M unit :=
  console_log ("Downloading " +:+ url +:+ "...") ;;
  response <- fetch P url ;;
  if negb (ok response) then
    throw ("Failed to download " +:+ url +:+ ": "
             +:+ JS.string_of_N (status response) +:+ " " +:+ statusText response)
  else
    let buffer := arrayBuffer response in
    Bun_write dest buffer ;;
    console_log ("Downloaded to " +:+ dest).

Definition extractTarGz (archivePath destDir : string) (stripComponents : Z) : M unit :=
  let args := ["tar"; "-xzf"; archivePath; "-C"; destDir] in
  let args :=
    if (0 <? stripComponents)%Z
    then args ++ ["--strip-components=" +:+ JS.string_of_N (Z.to_N stripComponents)]
    else args in
  proc <- Bun_spawn P args None ;;
  if negb (exitCode proc =? 0)%Z then
    throw ("Failed to extract " +:+ archivePath)
  else ret tt.

Definition extractZip (archivePath destDir : string) : M unit :=
  proc <- Bun_spawn P ["unzip"; "-o"; "-q"; archivePath; "-d"; destDir] None ;;
  if negb (exitCode proc =? 0)%Z then
    let stderr := stderr proc in
    throw ("Failed to extract " +:+ archivePath +:+ ": " +:+ stderr)
  else ret tt.

Definition downloadRipgrep : M string :=
  console_log (JS.nl +:+ "=== Downloading ripgrep ===") ;;
  let platform := "x86_64-unknown-linux-musl" in
  let filename := "ripgrep-" +:+ RIPGREP_VERSION +:+ "-" +:+ platform +:+ ".tar.gz" in
  let url := "https://github.com/BurntSushi/ripgrep/releases/download/"
               +:+ RIPGREP_VERSION +:+ "/" +:+ filename in
  let ripgrepDir := Path.join [DEPS_DIR; "ripgrep"] in
  fs_mkdir ripgrepDir ;;
  let archivePath := Path.join [DEPS_DIR; filename] in
  downloadFile url archivePath ;;
  extractTarGz archivePath ripgrepDir 1 ;;
  fs_unlink archivePath ;;
  fs_chmod (Path.join [ripgrepDir; "rg"]) 493 ;;
  console_log "Ripgrep downloaded successfully" ;;
  ret RIPGREP_VERSION.

Definition downloadClangd : M string :=
  console_log (JS.nl +:+ "=== Downloading clangd ===") ;;
  releaseResponse <- fetch P "https://api.github.com/repos/clangd/clangd/releases/latest" ;;
  if negb (ok releaseResponse) then throw "Failed to fetch clangd release info" else
  release <- response_json releaseResponse ;;
  let tag := tag_name release in
  asset <- findClangdAsset release ;;
  let clangdDir := Path.join [DEPS_DIR; "lsp"; "clangd"] in
  fs_mkdir clangdDir ;;
  let archivePath := Path.join [DEPS_DIR; name asset] in
  downloadFile (browser_download_url asset) archivePath ;;
  extractZip archivePath (Path.join [DEPS_DIR; "lsp"]) ;;
  fs_unlink archivePath ;;
  let extractedDir := Path.join [DEPS_DIR; "lsp"; "clangd_" +:+ tag] in
  let finalDir := Path.join [DEPS_DIR; "lsp"; "clangd"] in
  fs_rm finalDir ;;
  fs_rename extractedDir finalDir ;;
  fs_chmod (Path.join [finalDir; "bin"; "clangd"]) 493 ;;
  console_log ("Clangd " +:+ tag +:+ " downloaded successfully") ;;
  ret tag.

Definition downloadRustAnalyzer : M string :=
  console_log (JS.nl +:+ "=== Downloading rust-analyzer ===") ;;
  releaseResponse <- fetch P "https://api.github.com/repos/rust-lang/rust-analyzer/releases/latest" ;;
  if negb (ok releaseResponse) then throw "Failed to fetch rust-analyzer release info" else
  release <- response_json releaseResponse ;;
  let tag := tag_name release in
  asset <- findRustAnalyzerAsset release ;;
  let raDir := Path.join [DEPS_DIR; "lsp"; "rust-analyzer"; "bin"] in
  fs_mkdir raDir ;;
  let archivePath := Path.join [DEPS_DIR; "rust-analyzer.gz"] in
  downloadFile (browser_download_url asset) archivePath ;;
  proc <- Bun_spawn P ["gunzip"; "-c"; archivePath] None ;;
  let binaryData := stdout proc in
  if negb (exitCode proc =? 0)%Z then throw "Failed to extract rust-analyzer" else
  let binaryPath := Path.join [raDir; "rust-analyzer"] in
  Bun_write binaryPath binaryData ;;
  fs_chmod binaryPath 493 ;;
  fs_unlink archivePath ;;
  console_log ("rust-analyzer " +:+ tag +:+ " downloaded successfully") ;;
  ret tag.

Definition packages : list string := [
  "pyright";
  "typescript";
  "typescript-language-server";
  "opencode-anthropic-auth@0.0.9";
  "@gitlab/opencode-gitlab-auth@1.3.0";
  "@aws-sdk/credential-providers";
  "@opencode-ai/plugin"
].

(** [await Bun.file(p).json()] *)
Definition Bun_file_json (p : string) : M Json.json :=
  content <- fs_readFile p ;;
  match JSON_parse P content with
  | Some v => ret v
  | None => throw "SyntaxError: JSON Parse error"
  end.

(** [pkgJson.dependencies || {}] *)
Definition dependencies_of (pkgJson : Json.json) : M Json.json :=
  match pkgJson with
  | Json.JNull => throw "TypeError: null is not an object (evaluating 'pkgJson.dependencies')"
  | _ =>
      let deps := Json.get "dependencies" pkgJson in
      ret (if Json.truthy deps then default (Json.JObj []) deps else Json.JObj [])
  end.

Definition installNpmPackages : M (list (string * Json.json)) :=
  console_log (JS.nl +:+ "=== Installing npm packages ===") ;;
  let nodeModulesDir := Path.join [DEPS_DIR; "node_modules"] in
  fs_mkdir nodeModulesDir ;;
  let pkgJsonPath := Path.join [DEPS_DIR; "package.json"] in
  Bun_write pkgJsonPath (JSON_stringify P (Json.JObj [("dependencies", Json.JObj [])])) ;;
  let installCmd := ["bun"; "add"; "--cwd"; DEPS_DIR] ++ packages in
  console_log ("Running: " +:+ JS.join " " installCmd) ;;
  proc <- Bun_spawn P installCmd None ;;
  if negb (exitCode proc =? 0)%Z then throw "Failed to install npm packages" else
  let versions : list (string * Json.json) := [] in
  pkgJson <- Bun_file_json pkgJsonPath ;;
  deps <- dependencies_of pkgJson ;;
  let versions :=
    fold_left (fun versions e => Json.assign e.1 e.2 versions) (Json.entries deps) versions in
  console_log "npm packages installed successfully" ;;
  ret versions.

Definition manifestPath : string := Path.join [DEPS_DIR; "manifest.json"].

Definition createManifest (ripgrepVersion clangdVersion rustAnalyzerVersion : string)
    (npmVersions : list (string * Json.json)) : M unit :=
  console_log (JS.nl +:+ "=== Creating manifest ===") ;;
  created <- now P ;;
  let manifest := {|
    version := "1.0.0";
    created := created;
    platform := "linux";
    arch := "x64";
    components := {|
      ripgrep := ripgrepVersion;
      clangd := clangdVersion;
      rustAnalyzer := rustAnalyzerVersion;
      npmPackages := npmVersions;
    |};
  |} in
  Bun_write manifestPath (JSON_stringify P (to_json manifest)) ;;
  console_log "Manifest created".

Definition main : M unit :=
  console_log "=== OpenCode Offline Dependencies Downloader ===" ;;
  console_log ("Target directory: " +:+ DEPS_DIR) ;;
  fs_rm DEPS_DIR ;;
  fs_mkdir DEPS_DIR ;;
  ripgrepVersion <- downloadRipgrep ;;
  clangdVersion <- downloadClangd ;;
  rustAnalyzerVersion <- downloadRustAnalyzer ;;
  npmVersions <- installNpmPackages ;;
  createManifest ripgrepVersion clangdVersion rustAnalyzerVersion npmVersions ;;
  console_log (JS.nl +:+ "=== Download complete ===") ;;
  console_log ("Dependencies saved to: " +:+ DEPS_DIR).
End Script.

End DownloadDeps.

(** ** script/package-offline-bundle.ts *)

Module PackageBundle.
Import Sys.
Local Open Scope sys_scope.

Definition DEPS_DIR : string := "dist/offline-deps".
Definition BUNDLE_DIR : string := "dist/opencode-offline-linux-x64".
Definition TARBALL_NAME : string := "opencode-offline-linux-x64.tar.gz".

(** A template literal, line by line: every line ends with a newline. *)
Definition unlines (lines : list string) : string :=
  fold_right (fun l acc => l +:+ JS.nl +:+ acc) EmptyString lines.

Definition wrapperLines : list string := [
  "#!/bin/bash";
  "# OpenCode Offline Wrapper Script";
  "# Sets up environment variables for offline mode and runs opencode";
  EmptyString;
  "SCRIPT_DIR=" +:+ JS.dq +:+ "$(cd " +:+ JS.dq +:+ "$(dirname " +:+ JS.dq
    +:+ "${BASH_SOURCE[0]}" +:+ JS.dq +:+ ")" +:+ JS.dq +:+ " && pwd)" +:+ JS.dq;
  EmptyString;
  "export OPENCODE_OFFLINE_MODE=true";
  "export OPENCODE_OFFLINE_DEPS_PATH=" +:+ JS.dq +:+ "$SCRIPT_DIR/deps" +:+ JS.dq;
  "export OPENCODE_DISABLE_AUTOUPDATE=true";
  "export OPENCODE_DISABLE_LSP_DOWNLOAD=true";
  "export OPENCODE_DISABLE_MODELS_FETCH=true";
  EmptyString;
  "exec " +:+ JS.dq +:+ "$SCRIPT_DIR/bin/opencode" +:+ JS.dq +:+ " " +:+ JS.dq +:+ "$@" +:+ JS.dq
].

Definition wrapperScript : string := unlines wrapperLines.

Definition readmeLines : list string := [
  "# OpenCode Offline Bundle";
  EmptyString;
  "This is a self-contained offline bundle of OpenCode for Linux x64 (RHEL9 compatible).";
  EmptyString;
  "## Contents";
  EmptyString;
  "- `bin/opencode` - Main OpenCode binary";
  "- `deps/` - Pre-bundled dependencies";
  "  - `ripgrep/` - Ripgrep binary for fast file searching";
  "  - `lsp/` - Language server binaries (clangd, rust-analyzer)";
  "  - `node_modules/` - npm packages (pyright, typescript, etc.)";
  "- `manifest.json` - Version information for all bundled components";
  "- `opencode-offline` - Wrapper script that sets up the environment";
  EmptyString;
  "## Usage";
  EmptyString;
  "### Option 1: Use the wrapper script (recommended)";
  EmptyString;
  "```bash";
  "./opencode-offline";
  "```";
  EmptyString;
  "### Option 2: Set environment variables manually";
  EmptyString;
  "```bash";
  "export OPENCODE_OFFLINE_MODE=true";
  "export OPENCODE_OFFLINE_DEPS_PATH=/path/to/deps";
  "./bin/opencode";
  "```";
  EmptyString;
  "## Supported Languages";
  EmptyString;
  "This bundle includes LSP support for:";
  "- **Python** - via Pyright";
  "- **TypeScript/JavaScript** - via typescript-language-server";
  "- **C/C++** - via clangd";
  "- **Rust** - via rust-analyzer";
  EmptyString;
  "## Environment Variables";
  EmptyString;
  "- `OPENCODE_OFFLINE_MODE` - Set to `true` to enable offline mode";
  "- `OPENCODE_OFFLINE_DEPS_PATH` - Path to the deps directory";
  "- `OPENCODE_DISABLE_AUTOUPDATE` - Set to `true` to disable auto-updates";
  "- `OPENCODE_DISABLE_LSP_DOWNLOAD` - Set to `true` to prevent LSP downloads";
  "- `OPENCODE_DISABLE_MODELS_FETCH` - Set to `true` to prevent fetching models from models.dev";
  EmptyString;
  "## Troubleshooting";
  EmptyString;
  "### /tmp mounted with noexec";
  "This bundle includes a pre-extracted OpenTUI native library in `deps/opentui/`.";
  "When `OPENCODE_OFFLINE_DEPS_PATH` is set (done automatically by the wrapper script),";
  "the application will load this library directly, bypassing the /tmp extraction";
  "that would otherwise fail on systems with noexec /tmp."
].

Definition readme : string := unlines readmeLines.

(** [(size / (1024 * 1024)).toFixed(2)]: the quotient is exact in a
    double, and [toFixed] rounds its decimal expansion half up. *)
Definition sizeMB (size : N) : string :=
  let n := ((size * 200 + 1048576) / 2097152)%N in
  let cents := (n mod 100)%N in
  JS.string_of_N (n / 100) +:+ "."
    +:+ (if (cents <? 10)%N then "0" else EmptyString) +:+ JS.string_of_N cents.

Definition isLinuxX64Dir (e : string) : bool :=
  JS.includes e "linux" && JS.includes e "x64"
    && negb (JS.includes e "baseline") && negb (JS.includes e "musl").

(** [manifest[key] = value] on the parsed manifest: a property of an
    object is set; an array takes the property without serialising it;
    [null] and the primitives reject the assignment. *)
Definition set_property (key : string) (value : Json.json) (manifest : Json.json)
  : M Json.json :=
  match manifest with
  | Json.JObj _ => ret (Json.set key value manifest)
  | Json.JArr _ => ret manifest
  | _ => throw ("TypeError: cannot set property '" +:+ key +:+ "'")
  end.

Section Script.
Variable P : Platform.

Definition buildOpencode : M string :=
  console_log (JS.nl +:+ "=== Building opencode for Linux x64 ===") ;;
  console_log "Installing dependencies..." ;;
  installProc <- Bun_spawn P ["bun"; "install"] (Some "packages/opencode") ;;
  if negb (exitCode installProc =? 0)%Z then throw "Failed to install dependencies" else
  proc <- Bun_spawn P ["bun"; "run"; "./script/build.ts"] (Some "packages/opencode") ;;
  if negb (exitCode proc =? 0)%Z then throw "Failed to build opencode" else
  let distDir := "packages/opencode/dist" in
  entries <- fs_readdir distDir ;;
  match JS.find isLinuxX64Dir entries with
  | None => throw "Could not find linux-x64 build output"
  | Some linuxX64Dir =>
      console_log ("Build complete: " +:+ linuxX64Dir) ;;
      ret (Path.join [distDir; linuxX64Dir])
  end.

Definition bundleManifestPath : string := Path.join [BUNDLE_DIR; "manifest.json"].

Definition createBundle (buildDir : string) : M unit :=
  console_log (JS.nl +:+ "=== Creating bundle structure ===") ;;
  fs_rm BUNDLE_DIR ;;
  fs_mkdir (Path.join [BUNDLE_DIR; "bin"]) ;;
  fs_mkdir (Path.join [BUNDLE_DIR; "deps"]) ;;
  console_log "Copying opencode binary..." ;;
  let binaryPath := Path.join [buildDir; "bin"; "opencode"] in
  fs_copyFile binaryPath (Path.join [BUNDLE_DIR; "bin"; "opencode"]) ;;
  fs_chmod (Path.join [BUNDLE_DIR; "bin"; "opencode"]) 493 ;;
  console_log "Copying dependencies..." ;;
  shell_cp_r DEPS_DIR (Path.join [BUNDLE_DIR; "deps"]) ;;
  console_log "Copying OpenTUI native library..." ;;
  let opentuiSoPath :=
    "node_modules/.bun/@opentui+core-linux-x64@0.1.74/node_modules/@opentui/core-linux-x64/libopentui.so" in
  fs_mkdir (Path.join [BUNDLE_DIR; "deps"; "opentui"]) ;;
  fs_copyFile opentuiSoPath (Path.join [BUNDLE_DIR; "deps"; "opentui"; "libopentui.so"]) ;;
  manifestContent <- fs_readFile (Path.join [DEPS_DIR; "manifest.json"]) ;;
  match JSON_parse P manifestContent with
  | None => throw "SyntaxError: JSON Parse error"
  | Some manifest =>
      bundleVersion <- process_env P "BUNDLE_VERSION" ;;
      commitSha <- process_env P "BUNDLE_COMMIT_SHA" ;;
      manifest <-
        (match bundleVersion with
         | Some v =>
             if JS.truthy v then
               manifest <- set_property "bundleVersion" (Json.JStr v) manifest ;;
               console_log ("Injecting bundleVersion: " +:+ v) ;;
               ret manifest
             else ret manifest
         | None => ret manifest
         end) ;;
      manifest <-
        (match commitSha with
         | Some v =>
             if JS.truthy v then
               manifest <- set_property "commitSha" (Json.JStr v) manifest ;;
               console_log ("Injecting commitSha: " +:+ v) ;;
               ret manifest
             else ret manifest
         | None => ret manifest
         end) ;;
      Bun_write bundleManifestPath (JSON_stringify P manifest) ;;
      console_log "Bundle structure created"
  end.

Definition wrapperPath : string := Path.join [BUNDLE_DIR; "opencode-offline"].

Definition createWrapperScript : M unit :=
  console_log (JS.nl +:+ "=== Creating wrapper script ===") ;;
  Bun_write wrapperPath wrapperScript ;;
  fs_chmod wrapperPath 493 ;;
  console_log "Wrapper script created".

Definition createReadme : M unit :=
  console_log (JS.nl +:+ "=== Creating README ===") ;;
  Bun_write (Path.join [BUNDLE_DIR; "README.md"]) readme ;;
  console_log "README created".

Definition createTarball : M unit :=
  console_log (JS.nl +:+ "=== Creating tarball ===") ;;
  let tarballPath := Path.join ["dist"; TARBALL_NAME] in
  catch (fs_unlink tarballPath) (fun _ => ret tt) ;;
  proc <- Bun_spawn P ["tar"; "-czf"; TARBALL_NAME; "opencode-offline-linux-x64"] (Some "dist") ;;
  if negb (exitCode proc =? 0)%Z then throw "Failed to create tarball" else
  stats <- fs_stat tarballPath ;;
  let sizeMB := sizeMB (size stats) in
  console_log ("Tarball created: " +:+ tarballPath +:+ " (" +:+ sizeMB +:+ " MB)").

Definition main : M unit :=
  console_log "=== OpenCode Offline Bundle Packager ===" ;;
  depsExist <- catch (stats <- fs_stat DEPS_DIR ;; ret (Some stats)) (fun _ => ret None) ;;
  match depsExist with
  | None =>
      console_error ("Error: Dependencies not found at " +:+ DEPS_DIR) ;;
      console_error "Please run 'bun run script/download-offline-deps.ts' first" ;;
      process_exit 1
  | Some _ => ret tt
  end ;;
  buildDir <- buildOpencode ;;
  createBundle buildDir ;;
  createWrapperScript ;;
  createReadme ;;
  createTarball ;;
  console_log (JS.nl +:+ "=== Packaging complete ===") ;;
  console_log ("Bundle directory: " +:+ BUNDLE_DIR) ;;
  console_log ("Tarball: dist/" +:+ TARBALL_NAME).
End Script.

End PackageBundle.

(** ** A sample platform, for running the scripts on concrete inputs *)

Module Sample.
Import Sys.

(** *** JSON text: [JSON.stringify(value, null, 2)] and [JSON.parse] *)

Definition hex_digit (n : nat) : ascii :=
  if (n <? 10)%nat then ascii_of_nat (48 + n) else ascii_of_nat (87 + n).

Definition escape_char (c : ascii) : string :=
  let n := nat_of_ascii c in
  if Ascii.eqb c "034" then "\" +:+ JS.dq
  else if Ascii.eqb c "\" then "\\"
  else if (n =? 8)%nat then "\b"
  else if (n =? 9)%nat then "\t"
  else if (n =? 10)%nat then "\n"
  else if (n =? 12)%nat then "\f"
  else if (n =? 13)%nat then "\r"
  else if (n <? 32)%nat
       then "\u00" +:+ String (hex_digit (n / 16)) (String (hex_digit (n mod 16)) EmptyString)
  else String c EmptyString.

Fixpoint escape (s : string) : string :=
  match s with
  | EmptyString => EmptyString
  | String c s' => escape_char c +:+ escape s'
  end.

Definition quote (s : string) : string := JS.dq +:+ escape s +:+ JS.dq.

Definition string_of_Z (n : Z) : string :=
  match n with
  | Zneg p => "-" +:+ JS.string_of_N (Npos p)
  | _ => JS.string_of_N (Z.to_N n)
  end.

Fixpoint print (indent : string) (j : Json.json) : string :=
  let inner := indent +:+ "  " in
  match j with
  | Json.JNull => "null"
  | Json.JBool b => if b then "true" else "false"
  | Json.JNum n => string_of_Z n
  | Json.JStr s => quote s
  | Json.JArr [] => "[]"
  | Json.JArr items =>
      "[" +:+ JS.nl
        +:+ (fix each (l : list Json.json) : string :=
               match l with
               | [] => EmptyString
               | [x] => inner +:+ print inner x
               | x :: rest => inner +:+ print inner x +:+ "," +:+ JS.nl +:+ each rest
               end) items
        +:+ JS.nl +:+ indent +:+ "]"
  | Json.JObj [] => "{}"
  | Json.JObj fields =>
      "{" +:+ JS.nl
        +:+ (fix each (l : list (string * Json.json)) : string :=
               match l with
               | [] => EmptyString
               | [(k, v)] => inner +:+ quote k +:+ ": " +:+ print inner v
               | (k, v) :: rest =>
                   inner +:+ quote k +:+ ": " +:+ print inner v +:+ "," +:+ JS.nl +:+ each rest
               end) fields
        +:+ JS.nl +:+ indent +:+ "}"
  end.

Definition stringify (j : Json.json) : string := print EmptyString j.

Definition is_space (c : ascii) : bool :=
  let n := nat_of_ascii c in
  (n =? 32)%nat || (n =? 10)%nat || (n =? 13)%nat || (n =? 9)%nat.

Fixpoint skip_ws (s : string) : string :=
  match s with
  | String c s' => if is_space c then skip_ws s' else s
  | EmptyString => s
  end.

Definition digit (c : ascii) : option N :=
  let n := nat_of_ascii c in
  if (48 <=? n)%nat && (n <=? 57)%nat then Some (N.of_nat (n - 48)) else None.

Definition is_digit (c : ascii) : bool :=
  match digit c with Some _ => true | None => false end.

Definition hex_value (c : ascii) : option nat :=
  let n := nat_of_ascii c in
  if (48 <=? n)%nat && (n <=? 57)%nat then Some (n - 48)%nat
  else if (97 <=? n)%nat && (n <=? 102)%nat then Some (n - 87)%nat
  else if (65 <=? n)%nat && (n <=? 70)%nat then Some (n - 55)%nat
  else None.

(** The characters of a string literal, after its opening quote. *)
Fixpoint read_string (s : string) : option (string * string) :=
  match s with
  | EmptyString => None
  | String c s' =>
      if Ascii.eqb c "034" then Some (EmptyString, s')
      else if Ascii.eqb c "\" then
        match s' with
        | String e s'' =>
            let plain (x : ascii) :=
              '(v, rest) ← read_string s''; Some (String x v, rest) in
            if Ascii.eqb e "u" then
              match s'' with
              | String h1 (String h2 (String h3 (String h4 s3))) =>
                  a ← hex_value h1; b ← hex_value h2;
                  c' ← hex_value h3; d ← hex_value h4;
                  if (a =? 0)%nat && (b =? 0)%nat then
                    '(v, rest) ← read_string s3;
                    Some (String (ascii_of_nat (c' * 16 + d)) v, rest)
                  else None
              | _ => None
              end
            else if Ascii.eqb e "n" then plain "010"%char
            else if Ascii.eqb e "t" then plain "009"%char
            else if Ascii.eqb e "r" then plain "013"%char
            else if Ascii.eqb e "b" then plain "008"%char
            else if Ascii.eqb e "f" then plain "012"%char
            else if Ascii.eqb e "034" || Ascii.eqb e "\" || Ascii.eqb e "/" then plain e
            else None
        | EmptyString => None
        end
      else '(v, rest) ← read_string s'; Some (String c v, rest)
  end.

Fixpoint read_digits (acc : N) (s : string) : N * string :=
  match s with
  | String c s' =>
      match digit c with
      | Some d => read_digits (acc * 10 + d) s'
      | None => (acc, s)
      end
  | EmptyString => (acc, s)
  end.

Definition expect (c : ascii) (s : string) : option string :=
  match skip_ws s with
  | String x rest => if Ascii.eqb x c then Some rest else None
  | EmptyString => None
  end.

Fixpoint drop (n : nat) (s : string) : string :=
  match n, s with
  | S n', String _ s' => drop n' s'
  | _, _ => s
  end.

Definition literal (word : string) (v : Json.json) (s : string)
  : option (Json.json * string) :=
  match JS.startsWith s word with
  | true => Some (v, drop (String.length word) s)
  | false => None
  end.

Fixpoint read_value (fuel : nat) (s : string) : option (Json.json * string) :=
  match fuel with
  | O => None
  | S fuel' =>
      match skip_ws s with
      | EmptyString => None
      | String c rest =>
          if Ascii.eqb c "{" then
            match skip_ws rest with
            | String "}" rest' => Some (Json.JObj [], rest')
            | _ => '(fields, rest') ← read_members fuel' rest; Some (Json.JObj fields, rest')
            end
          else if Ascii.eqb c "[" then
            match skip_ws rest with
            | String "]" rest' => Some (Json.JArr [], rest')
            | _ => '(items, rest') ← read_items fuel' rest; Some (Json.JArr items, rest')
            end
          else if Ascii.eqb c "034" then
            '(v, rest') ← read_string rest; Some (Json.JStr v, rest')
          else if Ascii.eqb c "-" then
            let '(n, rest') := read_digits 0 rest in Some (Json.JNum (- Z.of_N n), rest')
          else if is_digit c then
            let '(n, rest') := read_digits 0 (String c rest) in Some (Json.JNum (Z.of_N n), rest')
          else if Ascii.eqb c "t" then literal "true" (Json.JBool true) (String c rest)
          else if Ascii.eqb c "f" then literal "false" (Json.JBool false) (String c rest)
          else if Ascii.eqb c "n" then literal "null" Json.JNull (String c rest)
          else None
      end
  end
with read_members (fuel : nat) (s : string) : option (list (string * Json.json) * string) :=
  match fuel with
  | O => None
  | S fuel' =>
      rest ← expect "034" s;
      '(k, rest) ← read_string rest;
      rest ← expect ":" rest;
      '(v, rest) ← read_value fuel' rest;
      match skip_ws rest with
      | String c rest' =>
          if Ascii.eqb c "," then
            '(more, rest'') ← read_members fuel' rest'; Some ((k, v) :: more, rest'')
          else if Ascii.eqb c "}" then Some ([(k, v)], rest')
          else None
      | EmptyString => None
      end
  end
with read_items (fuel : nat) (s : string) : option (list Json.json * string) :=
  match fuel with
  | O => None
  | S fuel' =>
      '(v, rest) ← read_value fuel' s;
      match skip_ws rest with
      | String c rest' =>
          if Ascii.eqb c "," then
            '(more, rest'') ← read_items fuel' rest'; Some (v :: more, rest'')
          else if Ascii.eqb c "]" then Some ([v], rest')
          else None
      | EmptyString => None
      end
  end.

Definition parse (text : string) : option Json.json :=
  match read_value (String.length text) text with
  | Some (v, rest) =>
      match skip_ws rest with EmptyString => Some v | _ => None end
  | None => None
  end.

(** *** The outside world of a run in which everything works *)

Definition clangdRelease : Release :=
  {| tag_name := "18.1.3";
     assets := [
       {| name := "clangd-mac-18.1.3.zip";
          browser_download_url := "https://github.com/clangd/clangd/releases/download/18.1.3/clangd-mac-18.1.3.zip" |};
       {| name := "clangd-linux-18.1.3.zip";
          browser_download_url := "https://github.com/clangd/clangd/releases/download/18.1.3/clangd-linux-18.1.3.zip" |}
     ] |}.

Definition rustAnalyzerRelease : Release :=
  {| tag_name := "2024-01-08";
     assets := [
       {| name := "rust-analyzer-x86_64-unknown-linux-gnu.gz";
          browser_download_url := "https://github.com/rust-lang/rust-analyzer/releases/download/2024-01-08/rust-analyzer-x86_64-unknown-linux-gnu.gz" |}
     ] |}.

Definition respond (body : string) (release : option Release) : Response :=
  {| ok := true; status := 200; statusText := "OK"; arrayBuffer := body; json := release |}.

Definition net (url : string) (w : World) : option Response :=
  if String.eqb url "https://api.github.com/repos/clangd/clangd/releases/latest"
  then Some (respond "{}" (Some clangdRelease))
  else if String.eqb url "https://api.github.com/repos/rust-lang/rust-analyzer/releases/latest"
  then Some (respond "{}" (Some rustAnalyzerRelease))
  else Some (respond ("archive of " +:+ url) None).

Definition installed : Json.json :=
  Json.JObj [("dependencies", Json.JObj [
    ("pyright", Json.JStr "^1.1.350");
    ("typescript", Json.JStr "^5.3.3");
    ("opencode-anthropic-auth", Json.JStr "0.0.9")])].

Definition done_with (files : list (string * Node)) (output : string) : Proc :=
  {| exitCode := 0; stdout := output; stderr := EmptyString; Sys.files := files |}.

Definition run (argv : list string) (cwd : option string) (w : World) : Proc :=
  match argv with
  | "tar" :: "-xzf" :: _ =>
      done_with [("dist/offline-deps/ripgrep/rg", File "rg 14.1.1" 420)] EmptyString
  | "unzip" :: _ =>
      done_with [("dist/offline-deps/lsp/clangd_18.1.3", Dir);
                 ("dist/offline-deps/lsp/clangd_18.1.3/bin", Dir);
                 ("dist/offline-deps/lsp/clangd_18.1.3/bin/clangd", File "clangd 18.1.3" 420)]
        EmptyString
  | "gunzip" :: _ => done_with [] "rust-analyzer 2024-01-08"
  | "bun" :: "add" :: _ =>
      done_with [("dist/offline-deps/package.json", File (stringify installed) 420);
                 ("dist/offline-deps/node_modules/pyright", Dir);
                 ("dist/offline-deps/node_modules/typescript", Dir)]
        EmptyString
  | "bun" :: "run" :: _ =>
      done_with [("packages/opencode/dist", Dir);
                 ("packages/opencode/dist/opencode-linux-x64", Dir);
                 ("packages/opencode/dist/opencode-linux-x64/bin", Dir);
                 ("packages/opencode/dist/opencode-linux-x64/bin/opencode", File "opencode" 493)]
        EmptyString
  | "tar" :: "-czf" :: _ =>
      done_with [("dist/opencode-offline-linux-x64.tar.gz", File "tarball" 420)] EmptyString
  | _ => done_with [] EmptyString
  end.

Definition platform (env : string -> option string) : Platform :=
  {| Sys.net := net; Sys.run := run;
     clock := fun _ => "2024-01-15T10:30:00.000Z";
     Sys.env := env;
     JSON_stringify := stringify;
     JSON_parse := parse |}.

Definition no_env : string -> option string := fun _ => None.

(** An empty machine, but for the native library the bundle copies. *)
Definition start : World :=
  {| fs := {[ "node_modules/.bun/@opentui+core-linux-x64@0.1.74/node_modules/@opentui/core-linux-x64/libopentui.so"
              := File "libopentui" 420 ]};
     events := []; out := []; err := [] |}.
End Sample.

(** * The vocabulary of the properties *)

(** ** Rendering a captured request *)

Section CurlVocabulary.
Import RequestCapture.







End CurlVocabulary.

(** ** Paths *)

Section PathVocabulary.

(** A string without the separator splits into itself. *)
Definition whole (c : ascii) (x : string) : Prop := JS.split c x = [x].

Definition nontrivial (seg : string) : Prop :=
  seg <> EmptyString /\ seg <> ".".

(** The stacks the normaliser can reach: replaying one gives it back. *)
Definition settled (allow : bool) (res : list string) : Prop :=
  Forall nontrivial res /\ fold_left (Path.norm_step allow) (rev res) [] = res.

(** A path [path.join] leaves as it is: normalised, without a trailing
    separator, and neither [.] nor the root. *)
Definition canonical (base : string) : Prop :=
  Path.segments base <> [] /\
  base = (if Path.isAbsolute base then "/" else EmptyString)
           +:+ JS.join "/" (Path.segments base).

(** A relative path made of proper names only: no empty, [.] or [..]
    component. *)
Definition clean (e : string) : Prop :=
  Forall (fun x => nontrivial x /\ x <> "..") (JS.split Path.slash e).

End PathVocabulary.

(** ** The offline path resolver *)

Section ResolverVocabulary.
Import Offline.

Definition bundle_flags : Flag :=
  {| OPENCODE_OFFLINE_MODE := true;
     OPENCODE_OFFLINE_DEPS_PATH := Some "/opt/bundle/deps" |}.

Definition no_dotdot (x : string) : Prop := ".." ∉ JS.split Path.slash x.


End ResolverVocabulary.

(** ** Runs of a script *)

Section RunVocabulary.
Import Sys.

(** [m] can return [a]. *)
Definition returns {A} (m : M A) (a : A) : Prop :=
  exists w w', m w = (Ok a, w').

(** The events of a run are appended to those before it. *)
Definition grows (new : list Event) (w w' : World) : Prop :=
  events w' = events w ++ new.

(** No run of [m] performs a [bad] event. *)
Definition quiet (bad : Event -> Prop) {A} (m : M A) : Prop :=
  forall w, exists new, grows new w (m w).2 /\ Forall (fun e => ~ bad e) new.

(** Whatever the run of [m] from [w] appends holds a [bad] event. *)
Definition hit (bad : Event -> Prop) {A} (m : M A) (w : World) : Prop :=
  forall new, grows new w (m w).2 -> Exists bad new.

(** [p] exists in the file system of [w]. *)
Definition present (w : World) (p : string) : Prop := is_Some (fs w !! p).


End RunVocabulary.

(** ** The acquisition script *)

Section AcquisitionVocabulary.
Import Sys DownloadDeps.

Definition clangd_18 : string -> Asset := fun n =>
  {| name := n; browser_download_url := "https://github.com/clangd/clangd/releases/download/18.1.3/" +:+ n |}.

(** The event the manifest properties watch: a write to
    dist/offline-deps/manifest.json. *)
Definition writes_manifest (e : Event) : Prop :=
  exists content, e = EvWrite manifestPath content.




Definition broken_archive : Platform :=
  {| net := Sample.net;
     run := fun _ _ _ => {| exitCode := 2; stdout := EmptyString;
                            stderr := "gzip: stdin: unexpected end of file";
                            files := [] |};
     clock := fun _ => "2024-01-15T10:30:00.000Z";
     env := Sample.no_env; JSON_stringify := Sample.stringify;
     JSON_parse := Sample.parse |}.

End AcquisitionVocabulary.

(** ** The packaging script *)

Section PackagingVocabulary.
Import Sys PackageBundle.

(** The commands of a shell script: its lines, without the blank ones
    and the comments. *)
Definition commands (script : string) : list string :=
  List.filter (fun l => JS.truthy l && negb (JS.startsWith l "#"))
    (JS.split "010"%char script).

(** The property [manifest[key] = value] adds for an environment value:
    nothing when the variable is unset or empty. *)
Definition injected (key : string) (value : option string) : list (string * Json.json) :=
  match value with
  | Some v => if JS.truthy v then [(key, Json.JStr v)] else []
  | None => []
  end.

(** The assignments of [createBundle] to the parsed manifest. *)
Definition inject (P : Platform) (fields : list (string * Json.json))
  : list (string * Json.json) :=
  let fields :=
    match env P "BUNDLE_VERSION" with
    | Some v => if JS.truthy v then Json.assign "bundleVersion" (Json.JStr v) fields else fields
    | None => fields
    end in
  match env P "BUNDLE_COMMIT_SHA" with
  | Some v => if JS.truthy v then Json.assign "commitSha" (Json.JStr v) fields else fields
  | None => fields
  end.

Definition versioned (name : string) : option string :=
  if String.eqb name "BUNDLE_VERSION" then Some "1.4.0"
  else if String.eqb name "BUNDLE_COMMIT_SHA" then Some "9f2c1ab"
  else None.

Definition empty_version (name : string) : option string :=
  if String.eqb name "BUNDLE_VERSION" then Some EmptyString else None.

(** What the packaging script is expected to do to the outside world:
    run the install, the build and [tar], and write into the bundle. *)
Definition packaging_event (e : Event) : bool :=
  match e with
  | EvFetch _ => false
  | EvSpawn argv =>
      bool_decide (argv = ["bun"; "install"])
      || bool_decide (argv = ["bun"; "run"; "./script/build.ts"])
      || bool_decide (argv = ["tar"; "-czf"; "opencode-offline-linux-x64.tar.gz";
                              "opencode-offline-linux-x64"])
  | EvWrite path _ => JS.startsWith path (BUNDLE_DIR +:+ "/")
  end.

(** The world after a complete acquisition and a build. *)
Definition built (P : Platform) : World :=
  (buildOpencode P (DownloadDeps.main P Sample.start).2).2.

End PackagingVocabulary.

(** ** Shell words: how a POSIX shell splits a command line made of
    plain words, single quotes and backslashes *)

Section ShellVocabulary.

Inductive shell_mode := Plain | Quoted | Escaped | Unsupported.

Record shell_state := {
  words : list string;        (* the finished words, in order *)
  word : option string;       (* the word being read, if any *)
  mode : shell_mode;
}.

(** The characters with a meaning of their own outside quotes, other
    than blank, single quote and backslash. *)
Definition is_meta (c : ascii) : bool :=
  existsb (Ascii.eqb c)
    ["034"; "$"; "`"; ";"; "&"; "|"; "<"; ">"; "("; ")"; "*"; "?"; "["; "]";
     "#"; "~"; "{"; "}"; "!"; "="; "009"]%char.

Definition is_blank (c : ascii) : bool := Ascii.eqb c " " || Ascii.eqb c "010".

Definition add_char (c : ascii) (m : shell_mode) (st : shell_state) : shell_state :=
  {| words := words st;
     word := Some (default EmptyString (word st) +:+ String c EmptyString);
     mode := m |}.

Definition flush (st : shell_state) : shell_state :=
  {| words := words st ++ match word st with Some w => [w] | None => [] end;
     word := None;
     mode := mode st |}.

Definition shell_step (st : shell_state) (c : ascii) : shell_state :=
  match mode st with
  | Plain =>
      if is_blank c then flush st
      else if Ascii.eqb c "'" then
        {| words := words st; word := Some (default EmptyString (word st)); mode := Quoted |}
      else if Ascii.eqb c "\" then
        {| words := words st; word := word st; mode := Escaped |}
      else if is_meta c then
        {| words := words st; word := word st; mode := Unsupported |}
      else add_char c Plain st
  | Quoted =>
      if Ascii.eqb c "'" then {| words := words st; word := word st; mode := Plain |}
      else add_char c Quoted st
  | Escaped =>
      if Ascii.eqb c "010" then {| words := words st; word := word st; mode := Plain |}
      else add_char c Plain st
  | Unsupported => st
  end.

Fixpoint shell_run (st : shell_state) (s : string) : shell_state :=
  match s with
  | EmptyString => st
  | String c s' => shell_run (shell_step st c) s'
  end.

(** The words of a command line; [None] when a quote or a backslash is
    left open, or when the line uses more of the shell than modelled. *)
Definition shell_words (line : string) : option (list string) :=
  let st := shell_run {| words := []; word := None; mode := Plain |} line in
  match mode st with
  | Plain => Some (words (flush st))
  | _ => None
  end.




(** [part] is read as the words [init] followed by the word [last], which
    is left in progress. *)
Definition reads (part : string) (init : list string) (last : string) : Prop :=
  forall ws,
    shell_run {| words := ws; word := None; mode := Plain |} part
    = {| words := ws ++ init; word := Some last; mode := Plain |}.

(** The words of a part read as [spec.1] followed by [spec.2]. *)
Definition spoken (spec : list string * string) : list string := spec.1 ++ [spec.2].


End ShellVocabulary.

(** ** What a finished stage leaves behind *)

Section OutcomeVocabulary.
Import Sys.

(** Every [process.exit] of [m] carries a code in [allowed]. *)
Definition exits (allowed : Z -> Prop) {A} (m : M A) : Prop :=
  forall w c, (m w).1 = Exit c -> allowed c.

(** [p] is a file with mode 0o755. *)
Definition executable (w : World) (p : string) : Prop :=
  exists content, fs w !! p = Some (File content 493).





(** What a complete bundle holds, and the archive made of it. *)
Definition layout : list string := [
  "dist/opencode-offline-linux-x64/bin/opencode";
  "dist/opencode-offline-linux-x64/deps";
  "dist/opencode-offline-linux-x64/deps/opentui/libopentui.so";
  "dist/opencode-offline-linux-x64/manifest.json";
  "dist/opencode-offline-linux-x64/opencode-offline";
  "dist/opencode-offline-linux-x64/README.md";
  "dist/opencode-offline-linux-x64.tar.gz"
].

End OutcomeVocabulary.

(** * Properties *)

(** ** Strings *)

Section StringFacts.

Lemma append_cons (c : ascii) (a b : string) :
  String c a +:+ b = String c (a +:+ b).
Proof. reflexivity. Qed.

Lemma append_nil_left (s : string) : EmptyString +:+ s = s.
Proof. reflexivity. Qed.

Lemma append_nil_right (s : string) : s +:+ EmptyString = s.
Proof. induction s as [|c s IH]; [done | by rewrite append_cons, IH]. Qed.

Lemma append_assoc' (a b c : string) : (a +:+ b) +:+ c = a +:+ (b +:+ c).
Proof. induction a as [|x a IH]; [done | by rewrite !append_cons, IH]. Qed.

Lemma startsWith_append (p s : string) : JS.startsWith (p +:+ s) p = true.
Proof.
  induction p as [|c p IH]; [by destruct s |].
  rewrite append_cons. simpl. by rewrite Ascii.eqb_refl.
Qed.


Lemma includes_append (a b c : string) : JS.includes (a +:+ b +:+ c) b = true.
Proof.
  induction a as [|x a IH].
  - rewrite append_nil_left. destruct b as [|y b]; [by destruct c |].
    rewrite append_cons. simpl.
    by rewrite Ascii.eqb_refl, startsWith_append.
  - rewrite append_cons. simpl. rewrite IH. apply orb_true_r.
Qed.

Lemma endsWith_append (a s suffix : string) :
  JS.endsWith s suffix = true -> JS.endsWith (a +:+ s) suffix = true.
Proof.
  intros H. induction a as [|x a IH]; [done |].
  rewrite append_cons. simpl. rewrite IH. apply orb_true_r.
Qed.

Lemma endsWith_inv (s suffix : string) :
  JS.endsWith s suffix = true -> exists front, s = front +:+ suffix.
Proof.
  induction s as [|c s IH]; intros H.
  - destruct suffix; [by exists EmptyString | done].
  - unfold JS.endsWith in H; fold JS.endsWith in H.
    apply orb_true_iff in H as [H|H].
    + apply String.eqb_eq in H. by exists EmptyString.
    + destruct (IH H) as [front ->]. by exists (String c front).
Qed.

Lemma find_Some_iff {A} (p : A -> bool) (l : list A) (a : A) :
  JS.find p l = Some a <->
  exists before after,
    l = before ++ a :: after /\ p a = true /\ Forall (fun x => p x = false) before.
Proof.
  induction l as [|x l IH]; simpl.
  - split; [done |]. intros (before & after & H & _). by destruct before.
  - destruct (p x) eqn:Hx.
    + split.
      * intros [= ->]. by exists [], l.
      * intros (before & after & H & Ha & Hb).
        destruct before as [|y before]; simplify_eq/=; [done |].
        apply Forall_cons in Hb as [Hy _]. congruence.
    + rewrite IH. split.
      * intros (before & after & -> & Ha & Hb).
        exists (x :: before), after. by repeat split; [| constructor].
      * intros (before & after & H & Ha & Hb).
        destruct before as [|y before]; simplify_eq/=; [congruence |].
        apply Forall_cons in Hb as [_ Hb]. by exists before, after.
Qed.

Lemma find_None_iff {A} (p : A -> bool) (l : list A) :
  JS.find p l = None <-> Forall (fun x => p x = false) l.
Proof.
  induction l as [|x l IH]; simpl; [by split |].
  destruct (p x) eqn:Hx.
  - split; [done |]. intros H. apply Forall_cons in H as [H _]. congruence.
  - rewrite IH. split; [by constructor |]. by intros [_ ?]%Forall_cons.
Qed.

End StringFacts.

(** ** Release assets (download-offline-deps.ts, lines 93-96 and 135-138) *)

Section AssetSelection.
Import Sys DownloadDeps.

(** C2, as stated, fails: with two assets that both carry the platform
    marker, the tag and the extension, the selection does not fail; it
    answers the first one. *)
Lemma findClangdAsset_two_matches :
  let a1 := clangd_18 "clangd-linux-18.1.3.zip" in
  let a2 := clangd_18 "clangd_indexing_tools-linux-18.1.3.zip" in
  let release := {| tag_name := "18.1.3"; assets := [a1; a2] |} in
  isClangdAsset "18.1.3" a1 = true /\ isClangdAsset "18.1.3" a2 = true /\ a1 <> a2 /\
  findClangdAsset release Sample.start = (Ok a1, Sample.start).
Proof. cbv zeta. repeat split; [vm_compute; discriminate]. Qed.

(** C2 (amended): the selection answers the first asset, in listed
    order, whose name contains "linux", contains the tag and ends with
    ".zip", whenever there is one (several matches included), and throws
    "Could not find clangd Linux asset" exactly when there is none; the
    rust-analyzer asset is selected by equality of its name with the
    fixed file name, and its absence throws likewise. *)
Theorem findAsset_first_match (release : Release) (w : World) :
  let tag := tag_name release in
  (forall a,
      findClangdAsset release w = (Ok a, w) <->
      exists before after,
        assets release = before ++ a :: after /\
        (JS.includes (name a) "linux" = true /\ JS.includes (name a) tag = true
           /\ JS.endsWith (name a) ".zip" = true) /\
        Forall (fun x => isClangdAsset tag x = false) before) /\
  (findClangdAsset release w
     = (Throw {| message := "Could not find clangd Linux asset" |}, w) <->
   Forall (fun x => isClangdAsset tag x = false) (assets release)) /\
  (forall a,
      findRustAnalyzerAsset release w = (Ok a, w) <->
      exists before after,
        assets release = before ++ a :: after /\
        name a = "rust-analyzer-x86_64-unknown-linux-gnu.gz" /\
        Forall (fun x => name x <> "rust-analyzer-x86_64-unknown-linux-gnu.gz") before) /\
  (findRustAnalyzerAsset release w
     = (Throw {| message := "Could not find rust-analyzer Linux asset" |}, w) <->
   Forall (fun x => name x <> "rust-analyzer-x86_64-unknown-linux-gnu.gz") (assets release)).
Proof.
  cbv zeta. unfold findClangdAsset, findRustAnalyzerAsset.
  assert (Hra : forall l : list Asset,
             Forall (fun x => isRustAnalyzerAsset x = false) l <->
             Forall (fun x => name x <> "rust-analyzer-x86_64-unknown-linux-gnu.gz") l).
  { intros l. apply Forall_proper; [| done]. intros x. unfold isRustAnalyzerAsset.
    by rewrite String.eqb_neq. }
  repeat split.
  - destruct (JS.find _ _) as [b|] eqn:Hf; [| done].
    intros [= ->]. apply find_Some_iff in Hf as (before & after & ? & Ha & ?).
    exists before, after. unfold isClangdAsset in Ha.
    by apply andb_true_iff in Ha as [[? ?]%andb_true_iff ?].
  - intros (before & after & Hl & (H1 & H2 & H3) & Hb).
    assert (JS.find (isClangdAsset (tag_name release)) (assets release) = Some a) as ->; [| done].
    apply find_Some_iff. exists before, after. unfold isClangdAsset at 1.
    by rewrite H1, H2, H3.
  - destruct (JS.find _ _) eqn:Hf; [done |]. intros _. by apply find_None_iff.
  - intros H. apply find_None_iff in H. by rewrite H.
  - destruct (JS.find _ _) as [b|] eqn:Hf; [| done].
    intros [= ->]. apply find_Some_iff in Hf as (before & after & ? & Ha & ?).
    exists before, after. unfold isRustAnalyzerAsset in Ha.
    apply String.eqb_eq in Ha. by rewrite <- Hra.
  - intros (before & after & Hl & Hn & Hb).
    assert (JS.find isRustAnalyzerAsset (assets release) = Some a) as ->; [| done].
    apply find_Some_iff. exists before, after. unfold isRustAnalyzerAsset at 1.
    rewrite Hn, Hra. by rewrite String.eqb_refl.
  - destruct (JS.find _ _) eqn:Hf; [done |]. intros _. by apply Hra, find_None_iff.
  - intros H. apply Hra, find_None_iff in H. by rewrite H.
Qed.

End AssetSelection.

(** ** Rendering a captured request (request-capture.ts) *)

Section CurlRendering.
Import RequestCapture.






End CurlRendering.

(** ** [path.join] *)

Section PathFacts.

Lemma split_nonempty (c : ascii) (s : string) : JS.split c s <> [].
Proof.
  destruct s as [|a s]; simpl; [done |].
  destruct (Ascii.eqb a c); [done |]. by destruct (JS.split c s).
Qed.

Lemma split_append (c : ascii) (a b : string) :
  JS.split c (a +:+ String c b) = JS.split c a ++ JS.split c b.
Proof.
  induction a as [|x a IH].
  - rewrite append_nil_left. simpl. by rewrite Ascii.eqb_refl.
  - rewrite append_cons. simpl. rewrite IH.
    destruct (Ascii.eqb x c); [done |].
    pose proof (split_nonempty c a). by destruct (JS.split c a).
Qed.

Lemma split_whole (c : ascii) (s : string) : Forall (whole c) (JS.split c s).
Proof.
  induction s as [|a s IH]; simpl.
  - by repeat constructor.
  - destruct (Ascii.eqb a c) eqn:Ha; [by constructor |].
    pose proof (split_nonempty c s).
    destruct (JS.split c s) as [|x xs]; [done |].
    apply Forall_cons in IH as [Hx Hxs]. constructor; [| done].
    unfold whole in *. simpl. by rewrite Ha, Hx.
Qed.

Lemma whole_head (c a : ascii) (x : string) : whole c (String a x) -> a <> c.
Proof.
  unfold whole. simpl. intros H ->. rewrite Ascii.eqb_refl in H.
  injection H as _ H. by apply split_nonempty in H.
Qed.

Lemma join_split (c : ascii) (l : list string) :
  Forall (whole c) l -> l <> [] ->
  JS.split c (JS.join (String c EmptyString) l) = l.
Proof.
  induction l as [|x l IH]; [done |]. intros [Hx Hl]%Forall_cons _.
  destruct l as [|y l]; [done |].
  change (JS.join (String c EmptyString) (x :: y :: l))
    with (x +:+ String c EmptyString +:+ JS.join (String c EmptyString) (y :: l)).
  change (String c EmptyString +:+ ?t) with (String c t).
  rewrite split_append, IH by done. by rewrite Hx.
Qed.

Lemma norm_step_regular (allow : bool) (res : list string) (seg : string) :
  nontrivial seg -> seg <> ".." -> Path.norm_step allow res seg = seg :: res.
Proof.
  intros [H1 H2] H3. unfold Path.norm_step.
  apply String.eqb_neq in H1, H2, H3. by rewrite H1, H2, H3.
Qed.

Lemma settled_step (allow : bool) (res : list string) (seg : string) :
  settled allow res -> settled allow (Path.norm_step allow res seg).
Proof.
  intros [Hn Hr].
  destruct (decide (seg = EmptyString)) as [->|He]; [done |].
  destruct (decide (seg = ".")) as [->|Hd]; [done |].
  destruct (decide (seg = "..")) as [->|Hu].
  - unfold Path.norm_step. simpl. destruct res as [|top below].
    + destruct allow; [| done]. split; [by repeat constructor | done].
    + destruct (String.eqb_spec top "..") as [->|Ht].
      * destruct allow; [| done]. split; [by constructor |].
        simpl. rewrite fold_left_app. simpl in Hr. by rewrite Hr.
      * apply Forall_cons in Hn as [Htop Hn]. split; [done |].
        simpl in Hr. rewrite fold_left_app in Hr. simpl in Hr.
        rewrite norm_step_regular in Hr by done. by injection Hr.
  - rewrite norm_step_regular by done. split; [by constructor |].
    simpl. rewrite fold_left_app, Hr. simpl. by apply norm_step_regular.
Qed.

Lemma settled_fold (allow : bool) (l res : list string) :
  settled allow res -> settled allow (fold_left (Path.norm_step allow) l res).
Proof.
  revert res. induction l as [|seg l IH]; intros res H; simpl; [done |].
  by apply IH, settled_step.
Qed.

Lemma normalize_segments_settled (allow : bool) (l : list string) :
  Path.normalize_segments allow (Path.normalize_segments allow l)
  = Path.normalize_segments allow l.
Proof.
  unfold Path.normalize_segments.
  destruct (settled_fold allow l []) as [_ H]; [by split |]. by rewrite H.
Qed.

Lemma norm_fold_Forall (Q : string -> Prop) (allow : bool) (l res : list string) :
  Forall Q l -> Forall Q res -> Forall Q (fold_left (Path.norm_step allow) l res).
Proof.
  revert res. induction l as [|seg l IH]; intros res Hl Hres; simpl; [done |].
  apply Forall_cons in Hl as [Hseg Hl]. apply IH; [done |].
  unfold Path.norm_step.
  destruct (_ || _); [done |]. destruct (String.eqb seg "..").
  - destruct res as [|top below]; [destruct allow; by repeat constructor |].
    destruct (String.eqb top ".."); [destruct allow; [by constructor | done] |].
    by apply Forall_cons in Hres as [_ ?].
  - by constructor.
Qed.

(** Without [..] the normaliser only ever pushes. *)
Lemma norm_fold_grows (allow : bool) (l res : list string) :
  Forall (fun seg => seg <> "..") l ->
  exists extra, fold_left (Path.norm_step allow) l res = extra ++ res.
Proof.
  revert res. induction l as [|seg l IH]; intros res Hl; simpl; [by exists [] |].
  apply Forall_cons in Hl as [Hseg Hl].
  unfold Path.norm_step at 2. apply String.eqb_neq in Hseg. rewrite Hseg.
  destruct (_ || _).
  - by apply IH.
  - destruct (IH (seg :: res) Hl) as [extra ->].
    exists (extra ++ [seg]). by rewrite <- app_assoc.
Qed.

Lemma segments_whole (s : string) :
  Forall (fun x => whole Path.slash x /\ nontrivial x) (Path.segments s).
Proof.
  unfold Path.segments, Path.normalize_segments.
  apply Forall_rev.
  destruct (settled_fold (negb (Path.isAbsolute s)) (JS.split Path.slash s) [])
    as [Hn _]; [by split |].
  apply Forall_and. split; [| done].
  apply norm_fold_Forall; [apply split_whole | done].
Qed.

Lemma normalize_segments_pad (allow front back : bool) (segs : list string) :
  Path.normalize_segments allow
    ((if front then [EmptyString] else []) ++ segs ++ (if back then [EmptyString] else []))
  = Path.normalize_segments allow segs.
Proof.
  unfold Path.normalize_segments. rewrite !fold_left_app.
  replace (fold_left (Path.norm_step allow) (if front then [EmptyString] else []) [])
    with (@nil string) by by destruct front.
  by destruct back.
Qed.

(** Normalising a path changes neither its kind nor its segments. *)
Lemma normalize_keeps (s : string) :
  Path.isAbsolute (Path.normalize s) = Path.isAbsolute s /\
  Path.segments (Path.normalize s) = Path.segments s.
Proof.
  destruct s as [|c0 s0]; [done |].
  unfold Path.normalize. cbv match. generalize (String c0 s0) as s. intros s.
  pose proof (segments_whole s) as Hsegs.
  assert (Hidem : Path.normalize_segments (negb (Path.isAbsolute s)) (Path.segments s)
                  = Path.segments s) by apply normalize_segments_settled.
  destruct (Path.segments s) as [|x segs] eqn:Hs.
  { cbn [JS.join]. destruct (Path.isAbsolute s); [done |].
    by destruct (Path.trailingSeparator s). }
  apply Forall_and in Hsegs as [Hw Hn].
  assert (Hsplit : JS.split Path.slash (JS.join "/" (x :: segs)) = x :: segs)
    by by apply join_split.
  destruct x as [|b x']; [by apply Forall_cons in Hn as [[? _] _] |].
  assert (Hb : b <> Path.slash).
  { apply Forall_cons in Hw as [Hw _]. by eapply whole_head. }
  assert (exists body', JS.join "/" (String b x' :: segs) = String b body') as [body' Hbody].
  { destruct segs; [by eexists |]. by eexists. }
  rewrite Hbody in *. cbv match.
  assert (Hres : forall front back : bool,
    JS.split Path.slash
      ((if front then "/" else EmptyString) +:+ String b body'
         +:+ (if back then "/" else EmptyString))
    = (if front then [EmptyString] else []) ++ (String b x' :: segs)
        ++ (if back then [EmptyString] else [])).
  { intros front back.
    assert (JS.split Path.slash (String b body' +:+ (if back then "/" else EmptyString))
            = (String b x' :: segs) ++ (if back then [EmptyString] else [])) as Hback.
    { destruct back; [| by rewrite append_nil_right, app_nil_r].
      change "/" with (String Path.slash EmptyString).
      by rewrite split_append, Hsplit. }
    destruct front; [| by rewrite append_nil_left].
    change ("/" +:+ ?t) with (EmptyString +:+ String Path.slash t).
    by rewrite split_append, Hback. }
  split.
  - destruct (Path.isAbsolute s); [done |]. rewrite append_nil_left, append_cons.
    simpl. by apply Ascii.eqb_neq.
  - assert (Habs : Path.isAbsolute
              ((if Path.isAbsolute s then "/" else EmptyString) +:+ String b body'
                 +:+ (if Path.trailingSeparator s then "/" else EmptyString))
            = Path.isAbsolute s).
    { destruct (Path.isAbsolute s); [done |]. rewrite append_nil_left, append_cons.
      simpl. by apply Ascii.eqb_neq. }
    unfold Path.segments at 1. rewrite Habs, Hres, normalize_segments_pad. done.
Qed.

Lemma split_join (d : string) (xs : list string) :
  JS.split Path.slash (JS.join "/" (d :: xs))
  = JS.split Path.slash d ++ concat (map (JS.split Path.slash) xs).
Proof.
  revert d. induction xs as [|y ys IH]; intros d; [by rewrite app_nil_r |].
  change (JS.join "/" (d :: y :: ys))
    with (d +:+ String Path.slash (JS.join "/" (y :: ys))).
  by rewrite split_append, IH.
Qed.

Lemma isAbsolute_join (d : string) (xs : list string) :
  JS.truthy d = true -> Path.isAbsolute (JS.join "/" (d :: xs)) = Path.isAbsolute d.
Proof. destruct d; [done |]. by destruct xs. Qed.

(** Joining a base with components free of [..] stays below the base. *)
Lemma join_under (d : string) (rest : list string) :
  JS.truthy d = true ->
  Forall (fun x => ".." ∉ JS.split Path.slash x) rest ->
  Path.under d (Path.join (d :: rest)).
Proof.
  intros Hd Hrest. unfold Path.join. rewrite filter_cons_True by done.
  set (xs := filter (fun a => JS.truthy a = true) rest).
  destruct (normalize_keeps (JS.join "/" (d :: xs))) as [Habs Hsegs].
  split; [by rewrite Habs, isAbsolute_join |].
  rewrite Hsegs. unfold Path.segments.
  rewrite isAbsolute_join, split_join by done.
  unfold Path.normalize_segments. rewrite fold_left_app.
  destruct (norm_fold_grows (negb (Path.isAbsolute d))
              (concat (map (JS.split Path.slash) xs))
              (fold_left (Path.norm_step (negb (Path.isAbsolute d)))
                 (JS.split Path.slash d) [])) as [extra ->].
  - apply Forall_concat, Forall_map.
    apply Forall_forall. intros x Hx%list_elem_of_filter.
    destruct Hx as [_ Hx]. rewrite Forall_forall in Hrest.
    apply Forall_forall. intros seg Hseg ->. by apply (Hrest x).
  - rewrite rev_app_distr. by eexists.
Qed.

End PathFacts.

(** ** The offline path resolver (offline/index.ts) *)

Section OfflineResolver.
Import Offline.

(** C9, as stated, fails twice. A name with [..] components resolves to
    a path outside the dependency path, and a dependency path that is
    set to the empty string resolves to [undefined]. *)
Lemma resolve_escapes_deps_path :
  (resolveNpmPackage bundle_flags "../../../etc/passwd" = Some "/opt/etc/passwd"
   /\ ~ Path.under "/opt/bundle/deps" "/opt/etc/passwd"
   /\ JS.startsWith "/opt/etc/passwd" "/opt/bundle/deps" = false)
  /\ (let set_but_empty :=
        {| OPENCODE_OFFLINE_MODE := true; OPENCODE_OFFLINE_DEPS_PATH := Some EmptyString |} in
      OPENCODE_OFFLINE_DEPS_PATH set_but_empty <> None
      /\ resolveNpmPackage set_but_empty "pyright" = None).
Proof.
  repeat split; try done.
  intros [_ [k Hk]]. vm_compute in Hk. discriminate.
Qed.

(** C9 (amended): each resolver answers [undefined] exactly when offline
    mode is off or the dependency path is unset or empty; otherwise it
    answers [path.join] of the dependency path and the fixed layout
    (subpath/name, node_modules/pkg, lsp/lspName/bin/binaryName), which
    lies under the dependency path whenever the names given have no
    [..] component. *)
Theorem resolve_offline (F : Flag) :
  let off := OPENCODE_OFFLINE_MODE F = false
             \/ OPENCODE_OFFLINE_DEPS_PATH F = None
             \/ OPENCODE_OFFLINE_DEPS_PATH F = Some EmptyString in
  (forall name subpath, resolveBinary F name subpath = None <-> off) /\
  (forall pkg, resolveNpmPackage F pkg = None <-> off) /\
  (forall lspName binaryName, resolveLspBinary F lspName binaryName = None <-> off) /\
  (forall depsPath, ~ off -> OPENCODE_OFFLINE_DEPS_PATH F = Some depsPath ->
     (forall name subpath,
        resolveBinary F name subpath = Some (Path.join [depsPath; subpath; name]) /\
        (no_dotdot subpath -> no_dotdot name ->
         Path.under depsPath (Path.join [depsPath; subpath; name]))) /\
     (forall pkg,
        resolveNpmPackage F pkg = Some (Path.join [depsPath; "node_modules"; pkg]) /\
        (no_dotdot pkg ->
         Path.under depsPath (Path.join [depsPath; "node_modules"; pkg]))) /\
     (forall lspName binaryName,
        resolveLspBinary F lspName binaryName
          = Some (Path.join [depsPath; "lsp"; lspName; "bin"; binaryName]) /\
        (no_dotdot lspName -> no_dotdot binaryName ->
         Path.under depsPath (Path.join [depsPath; "lsp"; lspName; "bin"; binaryName])))).
Proof.
  cbv zeta.
  assert (Hoff : negb (isEnabled F) || negb (JS.truthy_opt (getDepsPath F)) = true <->
                 OPENCODE_OFFLINE_MODE F = false
                 \/ OPENCODE_OFFLINE_DEPS_PATH F = None
                 \/ OPENCODE_OFFLINE_DEPS_PATH F = Some EmptyString).
  { unfold isEnabled, getDepsPath. destruct F as [[] [[|c d]|]]; simpl; split;
      intros H; try done; auto; by destruct H as [|[|]]. }
  assert (Hfixed : forall fixed, In fixed ["node_modules"; "lsp"; "bin"] -> no_dotdot fixed).
  { intros fixed [<-|[<-|[<-|[]]]]; unfold no_dotdot; vm_compute;
      intros H; by repeat (apply elem_of_cons in H as [H|H]; [done |]); inversion H. }
  assert (Hnone : forall p : string,
             (if negb (isEnabled F) || negb (JS.truthy_opt (getDepsPath F))
              then None else Some p) = None <->
             OPENCODE_OFFLINE_MODE F = false
             \/ OPENCODE_OFFLINE_DEPS_PATH F = None
             \/ OPENCODE_OFFLINE_DEPS_PATH F = Some EmptyString).
  { intros p. rewrite <- Hoff. by destruct (_ || _). }
  split; [| split; [| split]]; try (intros; apply Hnone).
  intros depsPath Hon Hdeps. rewrite <- Hoff in Hon. apply not_true_is_false in Hon.
  unfold resolveBinary, resolveNpmPackage, resolveLspBinary. cbv zeta. rewrite Hon.
  apply orb_false_iff in Hon as [_ Ht]. apply negb_false_iff in Ht.
  unfold getDepsPath in *. rewrite Hdeps in *. simpl in Ht.
  cbn [from_option id].
  split; [| split].
  - intros name subpath. split; [done |]. intros H1 H2.
    apply join_under; [done | by repeat constructor].
  - intros pkg. split; [done |]. intros H1.
    apply join_under; [done |]. repeat constructor; [| done].
    apply Hfixed; simpl; auto.
  - intros lspName binaryName. split; [done |]. intros H1 H2.
    apply join_under; [done |]. repeat constructor; try done; apply Hfixed; simpl; auto.
Qed.

Lemma resolve_offline_witness :
  resolveLspBinary bundle_flags "clangd" "clangd" = Some "/opt/bundle/deps/lsp/clangd/bin/clangd"
  /\ Path.under "/opt/bundle/deps" "/opt/bundle/deps/lsp/clangd/bin/clangd".
Proof.
  assert (Hon : ~ (OPENCODE_OFFLINE_MODE bundle_flags = false
                  \/ OPENCODE_OFFLINE_DEPS_PATH bundle_flags = None
                  \/ OPENCODE_OFFLINE_DEPS_PATH bundle_flags = Some EmptyString)).
  { simpl. intros [H|[H|H]]; discriminate. }
  destruct (resolve_offline bundle_flags) as (_ & _ & _ & H).
  destruct (H "/opt/bundle/deps" Hon eq_refl) as (_ & _ & Hlsp).
  destruct (Hlsp "clangd" "clangd") as [Heq Hunder].
  split; [exact Heq |].
  apply Hunder; unfold no_dotdot; vm_compute; intros Hin;
    repeat (apply elem_of_cons in Hin as [Hin|Hin]; [discriminate |]); inversion Hin.
Defined.

End OfflineResolver.

(** ** Running scripts: outcomes and traces *)

Section Runs.
Import Sys.
Local Open Scope sys_scope.

Lemma bind_Ok {A B} (m : M A) (f : A -> M B) (w w' : World) (b : B) :
  bind m f w = (Ok b, w') ->
  exists a w1, m w = (Ok a, w1) /\ f a w1 = (Ok b, w').
Proof.
  unfold bind. destruct (m w) as [[a|e|c] w1]; [| done | done]. by exists a, w1.
Qed.

Section Trace.
Variable bad : Event -> Prop.

Lemma quiet_same {A} (m : M A) :
  (forall w, events (m w).2 = events w) -> quiet bad m.
Proof. intros H w. exists []. split; [| done]. unfold grows. by rewrite H, app_nil_r. Qed.

Lemma quiet_ret {A} (a : A) : quiet bad (ret a).
Proof. by apply quiet_same. Qed.

Lemma quiet_throw {A} (msg : string) : quiet bad (@throw A msg).
Proof. by apply quiet_same. Qed.

Lemma quiet_exit {A} (c : Z) : quiet bad (@process_exit A c).
Proof. by apply quiet_same. Qed.

Lemma quiet_bind {A B} (m : M A) (f : A -> M B) :
  quiet bad m -> (forall a, returns m a -> quiet bad (f a)) -> quiet bad (bind m f).
Proof.
  intros Hm Hf w. destruct (Hm w) as (new1 & Hg1 & Hq1). unfold bind.
  destruct (m w) as [[a|e|c] w1] eqn:Hw; [| by exists new1 | by exists new1].
  destruct (Hf a (ex_intro _ w (ex_intro _ w1 Hw)) w1) as (new2 & Hg2 & Hq2).
  exists (new1 ++ new2). split; [| by apply Forall_app].
  unfold grows in *. simpl in *. by rewrite Hg2, Hg1, app_assoc.
Qed.

Lemma quiet_catch {A} (m : M A) (h : Error -> M A) :
  quiet bad m -> (forall e, quiet bad (h e)) -> quiet bad (catch m h).
Proof.
  intros Hm Hh w. destruct (Hm w) as (new1 & Hg1 & Hq1). unfold catch.
  destruct (m w) as [[a|e|c] w1] eqn:Hw; [by exists new1 | | by exists new1].
  destruct (Hh e w1) as (new2 & Hg2 & Hq2).
  exists (new1 ++ new2). split; [| by apply Forall_app].
  unfold grows in *. simpl in *. by rewrite Hg2, Hg1, app_assoc.
Qed.

Lemma quiet_if {A} (c : bool) (m1 m2 : M A) :
  quiet bad m1 -> quiet bad m2 -> quiet bad (if c then m1 else m2).
Proof. by destruct c. Qed.

Lemma quiet_emit {A} (m : M A) (e : Event) :
  ~ bad e -> (forall w, exists w0, (m w).2 = emit e w0 /\ events w0 = events w) -> quiet bad m.
Proof.
  intros He H w. destruct (H w) as (w0 & -> & Hw0). exists [e].
  split; [| by repeat constructor]. unfold grows. simpl. by rewrite Hw0.
Qed.

Lemma hit_intro {A} (m : M A) (w : World) (new : list Event) :
  grows new w (m w).2 -> Exists bad new -> hit bad m w.
Proof.
  unfold hit, grows. intros Hg Hbad new' Hg'. rewrite Hg in Hg'.
  by apply app_inv_head in Hg' as <-.
Qed.

(** A [bad] event after a quiet first part: the first part returned, and
    the event belongs to what follows. *)
Lemma hit_bind {A B} (m : M A) (f : A -> M B) (w : World) :
  quiet bad m -> hit bad (bind m f) w ->
  exists a w1, m w = (Ok a, w1) /\ hit bad (f a) w1.
Proof.
  intros Hm Hhit. destruct (Hm w) as (new1 & Hg1 & Hq1).
  unfold hit, bind, grows in *.
  assert (Hno : ~ Exists bad new1).
  { intros (x & Hx & Hbx)%Exists_exists.
    rewrite Forall_forall in Hq1. by destruct (Hq1 x Hx). }
  destruct (m w) as [[a|e|c] w1] eqn:Hw; simpl in *.
  - exists a, w1. split; [done |]. intros new2 Hg2.
    assert (Exists bad (new1 ++ new2)) as [Hbad|Hbad]%Exists_app; [| done | done].
    apply Hhit. by rewrite Hg2, Hg1, app_assoc.
  - by destruct (Hno (Hhit new1 Hg1)).
  - by destruct (Hno (Hhit new1 Hg1)).
Qed.
End Trace.

(** *** The primitives *)

Section PrimitiveTraces.
Variable P : Platform.
Variable bad : Event -> Prop.

Lemma quiet_console_log (line : string) : quiet bad (console_log line).
Proof. by apply quiet_same. Qed.

Lemma quiet_console_error (line : string) : quiet bad (console_error line).
Proof. by apply quiet_same. Qed.

Lemma quiet_fetch (url : string) : ~ bad (EvFetch url) -> quiet bad (fetch P url).
Proof.
  intros H. apply (quiet_emit bad _ (EvFetch url) H). intros w. exists w.
  unfold fetch. by destruct (net P url w).
Qed.

Lemma quiet_response_json (r : Response) : quiet bad (response_json r).
Proof. unfold response_json. destruct (json r); by apply quiet_same. Qed.

Lemma quiet_Bun_write (dest content : string) :
  ~ bad (EvWrite dest content) -> quiet bad (Bun_write dest content).
Proof.
  intros H. apply (quiet_emit bad _ (EvWrite dest content) H). intros w.
  by eexists (set_fs _ w).
Qed.

Lemma quiet_Bun_spawn (argv : list string) (cwd : option string) :
  ~ bad (EvSpawn argv) -> quiet bad (Bun_spawn P argv cwd).
Proof.
  intros H. apply (quiet_emit bad _ (EvSpawn argv) H). intros w.
  by eexists (set_fs _ w).
Qed.

Lemma quiet_now : quiet bad (now P).
Proof. by apply quiet_same. Qed.

Lemma quiet_process_env (name : string) : quiet bad (process_env P name).
Proof. by apply quiet_same. Qed.

Lemma quiet_fs_rm (p : string) : quiet bad (fs_rm p).
Proof. by apply quiet_same. Qed.

Lemma quiet_fs_mkdir (p : string) : quiet bad (fs_mkdir p).
Proof. apply quiet_same. intros w. unfold fs_mkdir. by destruct (existsb _ _). Qed.

Lemma quiet_fs_unlink (p : string) : quiet bad (fs_unlink p).
Proof. apply quiet_same. intros w. unfold fs_unlink. by destruct (fs w !! p) as [[]|]. Qed.

Lemma quiet_fs_chmod (p : string) (mode : N) : quiet bad (fs_chmod p mode).
Proof. apply quiet_same. intros w. unfold fs_chmod. by destruct (fs w !! p) as [[]|]. Qed.

Lemma quiet_fs_rename (from to : string) : quiet bad (fs_rename from to).
Proof. apply quiet_same. intros w. unfold fs_rename. by destruct (fs w !! from). Qed.

Lemma quiet_fs_copyFile (src dest : string) : quiet bad (fs_copyFile src dest).
Proof. apply quiet_same. intros w. unfold fs_copyFile. by destruct (fs w !! src) as [[]|]. Qed.

Lemma quiet_fs_readFile (p : string) : quiet bad (fs_readFile p).
Proof. apply quiet_same. intros w. unfold fs_readFile. by destruct (fs w !! p) as [[]|]. Qed.

Lemma quiet_fs_stat (p : string) : quiet bad (fs_stat p).
Proof. apply quiet_same. intros w. unfold fs_stat. by destruct (fs w !! p) as [[]|]. Qed.

Lemma quiet_fs_readdir (p : string) : quiet bad (fs_readdir p).
Proof. apply quiet_same. intros w. unfold fs_readdir. by destruct (fs w !! p) as [[]|]. Qed.

Lemma quiet_shell_cp_r (src dst : string) : quiet bad (shell_cp_r src dst).
Proof. apply quiet_same. intros w. unfold shell_cp_r. by destruct (rerooted _ _ _). Qed.
End PrimitiveTraces.
End Runs.

(** ** The acquisition script (download-offline-deps.ts) *)

Section ArchiveNames.

Lemma split_last (c : ascii) (s suffix : string) :
  whole c suffix -> JS.endsWith s suffix = true ->
  exists init t, JS.split c s = init ++ [t] /\ JS.endsWith t suffix = true.
Proof.
  intros Hw. induction s as [|a s IH]; intros H.
  - exists [], EmptyString. by split.
  - unfold JS.endsWith in H; fold JS.endsWith in H.
    apply orb_true_iff in H as [H|H].
    + apply String.eqb_eq in H. exists [], (String a s). rewrite H. split; [done |].
      destruct suffix; [done |].
      unfold JS.endsWith; fold JS.endsWith. by rewrite String.eqb_refl.
    + destruct (IH H) as (init & t & Hs & Ht). simpl. rewrite Hs.
      destruct (Ascii.eqb a c); [by exists (EmptyString :: init), t |].
      destruct init as [|i init]; simpl.
      * exists [], (String a t). split; [done |]. simpl. rewrite Ht. apply orb_true_r.
      * by exists (String a i :: init), t.
Qed.

(** An archive named after a zip asset is never the manifest. *)
Lemma zip_archive_not_manifest (name : string) :
  JS.endsWith name ".zip" = true ->
  Path.join [DownloadDeps.DEPS_DIR; name] <> DownloadDeps.manifestPath.
Proof.
  intros Hzip Heq.
  assert (Hname : JS.truthy name = true) by by destruct name.
  unfold Path.join in Heq.
  rewrite filter_cons_True, filter_cons_True, filter_nil in Heq by done.
  apply (f_equal Path.segments) in Heq.
  destruct (normalize_keeps (JS.join "/" [DownloadDeps.DEPS_DIR; name])) as [_ Hk].
  rewrite Hk in Heq. clear Hk. unfold Path.segments in Heq at 1.
  rewrite isAbsolute_join, split_join in Heq by done.
  destruct (split_last Path.slash name ".zip" eq_refl Hzip) as (init & t & Hs & Ht).
  simpl in Heq. rewrite Hs, app_nil_r in Heq.
  unfold Path.normalize_segments in Heq.
  change ("dist" :: "offline-deps" :: init ++ [t])
    with (("dist" :: "offline-deps" :: init) ++ [t]) in Heq.
  rewrite fold_left_app in Heq. cbn [fold_left] in Heq.
  rewrite norm_step_regular in Heq.
  - simpl in Heq.
    change (Path.segments DownloadDeps.manifestPath)
      with (["dist"; "offline-deps"] ++ ["manifest.json"]) in Heq.
    apply app_inj_tail in Heq as [_ ->]. done.
  - split; intros ->; done.
  - intros ->; done.
Qed.

End ArchiveNames.

(** One step of a proof that a script performs no event of some kind:
    follow the structure of the script down to its primitives. *)
Ltac quiet_step side :=
  lazymatch goal with
  | |- quiet _ (Sys.bind _ _) => apply quiet_bind; [| intros ? ?]
  | |- quiet _ (if _ then _ else _) => apply quiet_if
  | |- quiet _ (Sys.ret _) => apply quiet_ret
  | |- quiet _ (Sys.throw _) => apply quiet_throw
  | |- quiet _ (Sys.process_exit _) => apply quiet_exit
  | |- quiet _ (Sys.catch _ _) => apply quiet_catch; [| intros ?]
  | |- quiet _ (Sys.console_log _) => apply quiet_console_log
  | |- quiet _ (Sys.console_error _) => apply quiet_console_error
  | |- quiet _ (Sys.fetch _ _) => apply quiet_fetch; side
  | |- quiet _ (Sys.response_json _) => apply quiet_response_json
  | |- quiet _ (Sys.Bun_write _ _) => apply quiet_Bun_write; side
  | |- quiet _ (Sys.Bun_spawn _ _ _) => apply quiet_Bun_spawn; side
  | |- quiet _ (Sys.now _) => apply quiet_now
  | |- quiet _ (Sys.process_env _ _) => apply quiet_process_env
  | |- quiet _ (Sys.fs_rm _) => apply quiet_fs_rm
  | |- quiet _ (Sys.fs_mkdir _) => apply quiet_fs_mkdir
  | |- quiet _ (Sys.fs_unlink _) => apply quiet_fs_unlink
  | |- quiet _ (Sys.fs_chmod _ _) => apply quiet_fs_chmod
  | |- quiet _ (Sys.fs_rename _ _) => apply quiet_fs_rename
  | |- quiet _ (Sys.fs_copyFile _ _) => apply quiet_fs_copyFile
  | |- quiet _ (Sys.fs_readFile _) => apply quiet_fs_readFile
  | |- quiet _ (Sys.fs_stat _) => apply quiet_fs_stat
  | |- quiet _ (Sys.fs_readdir _) => apply quiet_fs_readdir
  | |- quiet _ (Sys.shell_cp_r _ _) => apply quiet_shell_cp_r
  | |- quiet _ (match ?x with _ => _ end) => destruct x
  end.

Section AcquisitionTrace.
Import Sys DownloadDeps.
Local Open Scope sys_scope.
Variable P : Platform.

Lemma fetch_not_manifest (url : string) : ~ writes_manifest (EvFetch url).
Proof. by intros [? ?]. Qed.

Lemma spawn_not_manifest (argv : list string) : ~ writes_manifest (EvSpawn argv).
Proof. by intros [? ?]. Qed.

Lemma write_not_manifest (dest content : string) :
  dest <> manifestPath -> ~ writes_manifest (EvWrite dest content).
Proof. intros H [? [= ? _]]. done. Qed.

Ltac side :=
  first [ apply fetch_not_manifest
        | apply spawn_not_manifest
        | apply write_not_manifest; first [ assumption | by vm_compute ] ].

Lemma quiet_downloadFile (url dest : string) :
  dest <> manifestPath -> quiet writes_manifest (downloadFile P url dest).
Proof. intros H. unfold downloadFile. repeat quiet_step side. Qed.

Lemma quiet_extractTarGz (archivePath destDir : string) (strip : Z) :
  quiet writes_manifest (extractTarGz P archivePath destDir strip).
Proof. unfold extractTarGz. cbv zeta. repeat quiet_step side. Qed.

Lemma quiet_extractZip (archivePath destDir : string) :
  quiet writes_manifest (extractZip P archivePath destDir).
Proof. unfold extractZip. cbv zeta. repeat quiet_step side. Qed.

Lemma quiet_downloadRipgrep : quiet writes_manifest (downloadRipgrep P).
Proof.
  unfold downloadRipgrep. cbv zeta.
  repeat first [ apply quiet_downloadFile; by vm_compute
               | apply quiet_extractTarGz
               | quiet_step side ].
Qed.

Lemma findClangdAsset_returns (release : Release) (asset : Asset) :
  returns (findClangdAsset release) asset ->
  isClangdAsset (tag_name release) asset = true.
Proof.
  intros (w & w' & H). unfold findClangdAsset in H.
  destruct (JS.find _ _) as [a|] eqn:Hf; [| done]. injection H as -> _.
  by apply find_Some_iff in Hf as (_ & _ & _ & ? & _).
Qed.

Lemma quiet_findClangdAsset (release : Release) :
  quiet writes_manifest (findClangdAsset release).
Proof. unfold findClangdAsset. cbv zeta. repeat quiet_step side. Qed.

Lemma quiet_findRustAnalyzerAsset (release : Release) :
  quiet writes_manifest (findRustAnalyzerAsset release).
Proof. unfold findRustAnalyzerAsset. repeat quiet_step side. Qed.

Lemma quiet_downloadClangd : quiet writes_manifest (downloadClangd P).
Proof.
  unfold downloadClangd. cbv zeta.
  repeat first [ apply quiet_findClangdAsset
               | apply quiet_extractZip
               | apply quiet_downloadFile
               | quiet_step side ].
  apply zip_archive_not_manifest.
  match goal with H : returns (findClangdAsset _) _ |- _ =>
    apply findClangdAsset_returns in H; unfold isClangdAsset in H;
    by apply andb_true_iff in H as [_ ?]
  end.
Qed.

Lemma quiet_downloadRustAnalyzer : quiet writes_manifest (downloadRustAnalyzer P).
Proof.
  unfold downloadRustAnalyzer. cbv zeta.
  repeat first [ apply quiet_findRustAnalyzerAsset
               | apply quiet_downloadFile; by vm_compute
               | quiet_step side ].
Qed.

Lemma quiet_installNpmPackages : quiet writes_manifest (installNpmPackages P).
Proof.
  unfold installNpmPackages, Bun_file_json, dependencies_of. cbv zeta.
  repeat quiet_step side.
Qed.

End AcquisitionTrace.

(** ** What the primitives leave in the file system *)

Section StoreFacts.
Import Sys.
Variable P : Platform.

Lemma add_dir_keeps (d q : string) (f : gmap string Node) :
  is_Some (f !! q) -> is_Some (add_dir d f !! q).
Proof.
  unfold add_dir. destruct (f !! d) eqn:Hd; [done |].
  intros H. destruct (decide (d = q)) as [->|]; [by rewrite lookup_insert_eq |].
  by rewrite lookup_insert_ne.
Qed.

Lemma add_dir_present (d : string) (f : gmap string Node) : is_Some (add_dir d f !! d).
Proof.
  unfold add_dir. destruct (f !! d) eqn:Hd; [by rewrite Hd |].
  by rewrite lookup_insert_eq.
Qed.

Lemma add_dir_other (d q : string) (f : gmap string Node) :
  d <> q -> add_dir d f !! q = f !! q.
Proof.
  intros H. unfold add_dir. destruct (f !! d); [done |]. by rewrite lookup_insert_ne.
Qed.

Lemma add_dirs_keeps (ds : list string) (q : string) (f : gmap string Node) :
  is_Some (f !! q) -> is_Some (fold_right add_dir f ds !! q).
Proof. intros H. induction ds as [|d ds IH]; simpl; [done |]. by apply add_dir_keeps. Qed.

Lemma add_all_keeps (entries : list (string * Node)) (q : string) (f : gmap string Node) :
  is_Some (f !! q) -> is_Some (add_all entries f !! q).
Proof.
  unfold add_all. revert f. induction entries as [|e entries IH]; intros f H; simpl; [done |].
  apply IH. destruct (decide (e.1 = q)) as [->|]; [by rewrite lookup_insert_eq |].
  by rewrite lookup_insert_ne.
Qed.

Lemma add_all_other (entries : list (string * Node)) (q : string) (f : gmap string Node) :
  Forall (fun e => e.1 <> q) entries -> add_all entries f !! q = f !! q.
Proof.
  unfold add_all. revert f. induction entries as [|e entries IH]; intros f H; simpl; [done |].
  apply Forall_cons in H as [He H]. rewrite IH by done. by rewrite lookup_insert_ne.
Qed.

Lemma remove_tree_below (d q : string) (f : gmap string Node) :
  below d q = true -> remove_tree d f !! q = None.
Proof.
  intros H. unfold remove_tree. apply map_lookup_filter_None. right.
  intros x _. simpl. by rewrite H.
Qed.

Lemma remove_tree_other (d q : string) (f : gmap string Node) :
  below d q = false -> remove_tree d f !! q = f !! q.
Proof.
  intros H. unfold remove_tree. destruct (f !! q) as [x|] eqn:Hq.
  - by apply map_lookup_filter_Some.
  - apply map_lookup_filter_None. by left.
Qed.

Lemma fs_mkdir_Ok (p : string) (w w' : World) (u : unit) :
  fs_mkdir p w = (Ok u, w') ->
  present w' p /\ (forall q, present w q -> present w' q) /\
  (forall q, q <> p -> q ∉ parents p -> fs w' !! q = fs w !! q).
Proof.
  unfold fs_mkdir, present. destruct (existsb _ _); [done |]. intros [= _ <-]. simpl.
  split; [apply add_dir_present |]. split.
  - intros q H. by apply add_dir_keeps, add_dirs_keeps.
  - intros q Hq Hp. rewrite add_dir_other by done.
    induction (parents p) as [|d ds IH]; simpl; [done |].
    apply not_elem_of_cons in Hp as [? ?]. rewrite add_dir_other by done. by apply IH.
Qed.

Lemma fs_chmod_Ok (p : string) (mode : N) (w w' : World) (u : unit) :
  fs_chmod p mode w = (Ok u, w') ->
  present w' p /\ (forall q, present w q -> present w' q).
Proof.
  unfold fs_chmod, present. destruct (fs w !! p) as [[|c m]|] eqn:Hp; [| | done].
  - intros [= _ <-]. by rewrite Hp.
  - intros [= _ <-]. simpl. split; [by rewrite lookup_insert_eq |].
    intros q H. destruct (decide (p = q)) as [->|]; [by rewrite lookup_insert_eq |].
    by rewrite lookup_insert_ne.
Qed.

Lemma fs_unlink_Ok (p : string) (w w' : World) (u : unit) :
  fs_unlink p w = (Ok u, w') -> forall q, q <> p -> fs w' !! q = fs w !! q.
Proof.
  unfold fs_unlink. destruct (fs w !! p) as [[|c m]|]; [done | | done].
  intros [= _ <-] q Hq. simpl. by rewrite lookup_delete_ne.
Qed.

Lemma Bun_write_Ok (dest content : string) (w : World) :
  exists mode,
    Bun_write dest content w
    = (Ok tt, emit (EvWrite dest content) (set_fs (<[dest := File content mode]> (fs w)) w)).
Proof. by eexists. Qed.

Lemma Bun_write_keeps (dest content : string) (w w' : World) (u : unit) :
  Bun_write dest content w = (Ok u, w') -> forall q, present w q -> present w' q.
Proof.
  unfold Bun_write, present. intros [= _ <-] q H. simpl.
  destruct (decide (dest = q)) as [->|]; [by rewrite lookup_insert_eq |].
  by rewrite lookup_insert_ne.
Qed.

Lemma Bun_spawn_keeps (argv : list string) (cwd : option string) (w w' : World) (p : Proc) :
  Bun_spawn P argv cwd w = (Ok p, w') -> forall q, present w q -> present w' q.
Proof. unfold Bun_spawn, present. intros [= _ <-] q H. simpl. by apply add_all_keeps. Qed.

Lemma fs_readFile_Ok (p : string) (w w' : World) (c : string) :
  fs_readFile p w = (Ok c, w') ->
  w' = w /\ exists mode, fs w !! p = Some (File c mode).
Proof.
  unfold fs_readFile. destruct (fs w !! p) as [[|c' m]|]; [done | | done].
  intros [= -> ->]. split; [done |]. by exists m.
Qed.

Lemma fs_chmod_other (p : string) (mode : N) (w w' : World) (u : unit) :
  fs_chmod p mode w = (Ok u, w') -> forall q, q <> p -> fs w' !! q = fs w !! q.
Proof.
  unfold fs_chmod. destruct (fs w !! p) as [[|c m]|]; [| | done].
  - by intros [= _ <-].
  - intros [= _ <-] q Hq. simpl. by rewrite lookup_insert_ne.
Qed.

Lemma fs_copyFile_Ok (src dest : string) (w w' : World) (u : unit) :
  fs_copyFile src dest w = (Ok u, w') -> forall q, q <> dest -> fs w' !! q = fs w !! q.
Proof.
  unfold fs_copyFile. destruct (fs w !! src) as [[|c m]|]; [done | | done].
  intros [= _ <-] q Hq. simpl. by rewrite lookup_insert_ne.
Qed.

Lemma rerooted_keys (src dst : string) (f : gmap string Node) :
  Forall (fun e => JS.startsWith e.1 (dst +:+ "/") = true) (rerooted src dst f).
Proof.
  apply Forall_forall. intros e He. unfold rerooted in He.
  apply list_elem_of_omap in He as (x & _ & Hx).
  destruct (strip src x.1) as [rest|]; [| done]. injection Hx as <-. simpl.
  rewrite <- append_assoc'. apply startsWith_append.
Qed.

Lemma shell_cp_r_Ok (src dst : string) (w w' : World) (u : unit) :
  shell_cp_r src dst w = (Ok u, w') ->
  forall q, JS.startsWith q (dst +:+ "/") = false -> fs w' !! q = fs w !! q.
Proof.
  unfold shell_cp_r. pose proof (rerooted_keys src dst (fs w)) as Hkeys.
  destruct (rerooted src dst (fs w)) as [|e copies]; [done |].
  intros [= _ <-] q Hq. cbn [fs set_fs]. apply (add_all_other (e :: copies) q (fs w)).
  eapply Forall_impl; [exact Hkeys |]. simpl. intros x Hx Heq.
  rewrite Heq in Hx. congruence.
Qed.

End StoreFacts.

(** Close the side condition that a path is none of a list of paths. *)
Ltac untouched :=
  vm_compute;
  let Hin := fresh in
  intros Hin;
  repeat (apply elem_of_cons in Hin as [Hin|Hin]; [discriminate Hin |]);
  inversion Hin.

(** Peel the steps of a script that returned. *)
Ltac returned H :=
  repeat lazymatch type of H with
  | Sys.bind _ _ _ = (Sys.Ok _, _) =>
      let a := fresh "a" in
      let w := fresh "w" in
      let Hs := fresh "Hstep" in
      apply bind_Ok in H as (a & w & Hs & H);
      lazymatch type of Hs with
      | Sys.console_log _ _ = _ => unfold Sys.console_log in Hs; injection Hs as <- <-
      | Sys.ret _ _ = _ => unfold Sys.ret in Hs; injection Hs as <- <-
      | Sys.now _ _ = _ => unfold Sys.now in Hs; injection Hs as <- <-
      | Sys.fs_rm _ _ = _ => unfold Sys.fs_rm in Hs; injection Hs as <- <-
      | Sys.process_env _ _ _ = _ => unfold Sys.process_env, Sys.ret in Hs; injection Hs as <- <-
      | _ => idtac
      end
  | (if ?c then _ else _) _ = (Sys.Ok _, _) =>
      let Hc := fresh "Hcond" in
      destruct c eqn:Hc; [try discriminate H | try discriminate H]
  | Sys.console_log _ _ = (Sys.Ok _, _) => unfold Sys.console_log in H; injection H as _ <-
  | (let x := _ in _) _ = (Sys.Ok _, _) => cbv zeta in H
  | Sys.ret _ _ = (Sys.Ok _, _) => unfold Sys.ret in H; injection H as <- <-
  | Sys.throw _ _ = (Sys.Ok _, _) => discriminate H
  end.

(** ** The acquisitions and the manifest *)

Section Acquisition.
Import Sys DownloadDeps.
Local Open Scope sys_scope.
Variable P : Platform.

Lemma downloadRipgrep_Ok (w w' : World) (v : string) :
  downloadRipgrep P w = (Ok v, w') ->
  v = RIPGREP_VERSION /\ present w' "dist/offline-deps/ripgrep/rg".
Proof.
  unfold downloadRipgrep. cbv zeta. intros H. returned H.
  split; [done |].
  match goal with Hc : fs_chmod _ _ _ = _ |- _ => apply fs_chmod_Ok in Hc as [Hc _]; exact Hc end.
Qed.

Lemma downloadClangd_Ok (w w' : World) (v : string) :
  downloadClangd P w = (Ok v, w') ->
  present w' "dist/offline-deps/lsp/clangd/bin/clangd".
Proof.
  unfold downloadClangd. cbv zeta. intros H. returned H.
  match goal with Hc : fs_chmod _ _ _ = _ |- _ => apply fs_chmod_Ok in Hc as [Hc _]; exact Hc end.
Qed.

Lemma downloadRustAnalyzer_Ok (w w' : World) (v : string) :
  downloadRustAnalyzer P w = (Ok v, w') ->
  present w' "dist/offline-deps/lsp/rust-analyzer/bin/rust-analyzer".
Proof.
  unfold downloadRustAnalyzer. cbv zeta. intros H. returned H.
  match goal with Hc : fs_chmod _ _ _ = _, Hu : fs_unlink _ _ = _ |- _ =>
    apply fs_chmod_Ok in Hc as [Hc _];
    unfold present in *; cbn [fs logged];
    rewrite (fs_unlink_Ok _ _ _ _ Hu); [exact Hc | by vm_compute]
  end.
Qed.

Lemma Bun_file_json_Ok (p : string) (w w' : World) (v : Json.json) :
  Bun_file_json P p w = (Ok v, w') ->
  w' = w /\ exists content mode,
    fs w !! p = Some (File content mode) /\ JSON_parse P content = Some v.
Proof.
  unfold Bun_file_json. intros H. returned H.
  match goal with Hr : fs_readFile _ _ = _ |- _ =>
    apply fs_readFile_Ok in Hr as [-> [mode Hr]] end.
  destruct (JSON_parse P a) as [v'|] eqn:Hp; [| done].
  injection H as -> ->. split; [done |]. by exists a, mode.
Qed.

Lemma dependencies_of_Ok (pkgJson deps : Json.json) (w w' : World) :
  dependencies_of pkgJson w = (Ok deps, w') -> w' = w.
Proof. unfold dependencies_of. destruct pkgJson; intros H; by injection H. Qed.

Lemma installNpmPackages_Ok (w w' : World) (v : list (string * Json.json)) :
  installNpmPackages P w = (Ok v, w') ->
  present w' "dist/offline-deps/node_modules".
Proof.
  unfold installNpmPackages. cbv zeta. intros H. returned H.
  match goal with
    Hm : fs_mkdir _ _ = _, Hw : Bun_write _ _ _ = _, Hs : Bun_spawn _ _ _ _ = _,
    Hr : Bun_file_json _ _ _ = _, Hd : dependencies_of _ _ = _ |- _ =>
      apply fs_mkdir_Ok in Hm as [Hm _];
      apply (Bun_write_keeps _ _ _ _ _ Hw) in Hm;
      apply (Bun_spawn_keeps _ _ _ _ _ _ Hs) in Hm;
      apply Bun_file_json_Ok in Hr as [-> _];
      apply dependencies_of_Ok in Hd as ->;
      exact Hm
  end.
Qed.

(** [createManifest] cannot fail, and writes the manifest of its
    arguments, stamped with the current time. *)
Lemma createManifest_Ok (rg cl ra : string) (npm : list (string * Json.json)) (w : World) :
  exists w' mode,
    createManifest P rg cl ra npm w = (Ok tt, w') /\
    fs w' !! manifestPath
      = Some (File (JSON_stringify P (to_json
          {| version := "1.0.0";
             created := clock P (logged (JS.nl +:+ "=== Creating manifest ===") w);
             platform := "linux"; arch := "x64";
             components := {| ripgrep := rg; clangd := cl; rustAnalyzer := ra;
                              npmPackages := npm |} |})) mode) /\
    (forall q, present w q -> present w' q).
Proof.
  unfold createManifest, bind, console_log, now. cbv zeta.
  destruct (Bun_write_Ok manifestPath (JSON_stringify P (to_json
     {| version := "1.0.0";
        created := clock P (logged (JS.nl +:+ "=== Creating manifest ===") w);
        platform := "linux"; arch := "x64";
        components := {| ripgrep := rg; clangd := cl; rustAnalyzer := ra;
                         npmPackages := npm |} |}))
     (logged (JS.nl +:+ "=== Creating manifest ===") w)) as [mode Hw].
  rewrite Hw. eexists _, mode. split; [done |]. split.
  - simpl. by rewrite lookup_insert_eq.
  - intros q Hq. unfold present in *. simpl.
    destruct (decide (manifestPath = q)) as [->|]; [by rewrite lookup_insert_eq |].
    by rewrite lookup_insert_ne.
Qed.
(** A run of [main] that returned went through every stage. *)
Lemma main_Ok_inv (w w' : World) (u : unit) :
  main P w = (Ok u, w') ->
  exists w0 w1 w2 w3 w4 w5 clangdVersion rustAnalyzerVersion npmVersions mode,
    fs w0 !! manifestPath = None /\
    downloadRipgrep P w0 = (Ok RIPGREP_VERSION, w1) /\
    present w1 "dist/offline-deps/ripgrep/rg" /\
    downloadClangd P w1 = (Ok clangdVersion, w2) /\
    present w2 "dist/offline-deps/lsp/clangd/bin/clangd" /\
    downloadRustAnalyzer P w2 = (Ok rustAnalyzerVersion, w3) /\
    present w3 "dist/offline-deps/lsp/rust-analyzer/bin/rust-analyzer" /\
    installNpmPackages P w3 = (Ok npmVersions, w4) /\
    present w4 "dist/offline-deps/node_modules" /\
    createManifest P RIPGREP_VERSION clangdVersion rustAnalyzerVersion npmVersions w4
      = (Ok tt, w5) /\
    fs w5 !! manifestPath
      = Some (File (JSON_stringify P (to_json
          {| version := "1.0.0";
             created := clock P (logged (JS.nl +:+ "=== Creating manifest ===") w4);
             platform := "linux"; arch := "x64";
             components := {| ripgrep := RIPGREP_VERSION; clangd := clangdVersion;
                              rustAnalyzer := rustAnalyzerVersion;
                              npmPackages := npmVersions |} |})) mode) /\
    fs w' = fs w5.
Proof.
  unfold main. intros H. returned H.
  match goal with
    Hm : fs_mkdir DEPS_DIR ?wa = (_, ?w0),
    H1 : downloadRipgrep _ ?w0 = (Ok ?rg, ?w1),
    H2 : downloadClangd _ ?w1 = (Ok ?cl, ?w2),
    H3 : downloadRustAnalyzer _ ?w2 = (Ok ?ra, ?w3),
    H4 : installNpmPackages _ ?w3 = (Ok ?npm, ?w4),
    H5 : createManifest _ _ _ _ _ ?w4 = (_, ?w5) |- _ =>
      destruct (downloadRipgrep_Ok _ _ _ H1) as [-> Hrg];
      destruct (createManifest_Ok RIPGREP_VERSION cl ra npm w4) as (w5' & mode & H5' & Hfile & _);
      rewrite H5' in H5; injection H5 as <- <-;
      exists w0, w1, w2, w3, w4, w5', cl, ra, npm, mode;
      apply fs_mkdir_Ok in Hm as (_ & _ & Hclean)
  end.
  split.
  { rewrite Hclean; [| by vm_compute |].
    - cbn [fs set_fs logged]. by apply remove_tree_below.
    - vm_compute. intros Hin. apply elem_of_cons in Hin as [Hin|Hin]; [done |]. inversion Hin. }
  repeat split; eauto using downloadClangd_Ok, downloadRustAnalyzer_Ok, installNpmPackages_Ok.
Qed.

(** The manifest is not written before the last stage: a run of [main]
    that writes it returns. *)
Lemma main_hit_Ok (w : World) :
  hit writes_manifest (main P) w -> exists w', main P w = (Ok tt, w').
Proof.
  unfold main. intros H.
  apply hit_bind in H as ([] & w1 & H1 & H); [| apply quiet_console_log].
  apply hit_bind in H as ([] & w2 & H2 & H); [| apply quiet_console_log].
  apply hit_bind in H as ([] & w3 & H3 & H); [| apply quiet_fs_rm].
  apply hit_bind in H as ([] & w4 & H4 & H); [| apply quiet_fs_mkdir].
  apply hit_bind in H as (rg & w5 & H5 & H); [| apply quiet_downloadRipgrep].
  apply hit_bind in H as (cl & w6 & H6 & H); [| apply quiet_downloadClangd].
  apply hit_bind in H as (ra & w7 & H7 & H); [| apply quiet_downloadRustAnalyzer].
  apply hit_bind in H as (npm & w8 & H8 & H); [| apply quiet_installNpmPackages].
  destruct (createManifest_Ok rg cl ra npm w8) as (w9 & mode & H9 & _).
  unfold bind at 1. rewrite H1. unfold bind at 1. rewrite H2.
  unfold bind at 1. rewrite H3. unfold bind at 1. rewrite H4.
  unfold bind at 1. rewrite H5. unfold bind at 1. rewrite H6.
  unfold bind at 1. rewrite H7. unfold bind at 1. rewrite H8.
  unfold bind at 1. rewrite H9. by eexists.
Qed.

End Acquisition.

(** ** The manifest is written last, and only by a complete run *)

Section ManifestOrdering.
Import Sys DownloadDeps.
Variable P : Platform.

(** C1: in a run of the acquisition script, a write to the manifest file
    happens only after the four acquisitions (ripgrep, clangd,
    rust-analyzer, npm packages) returned, each with its artifact present
    in the file system when it returned; the run first removes any earlier
    manifest, the manifest written names exactly what the four returned,
    and the run itself returns. A run that fails at any step therefore
    performs no write to the manifest file. *)
Theorem manifest_written_last (w : World) (new : list Event) :
  grows new w (main P w).2 ->
  (Exists writes_manifest new ->
   exists w0 w1 w2 w3 w4 w5 clangdVersion rustAnalyzerVersion npmVersions mode,
     fs w0 !! manifestPath = None /\
     downloadRipgrep P w0 = (Ok RIPGREP_VERSION, w1) /\
     present w1 "dist/offline-deps/ripgrep/rg" /\
     downloadClangd P w1 = (Ok clangdVersion, w2) /\
     present w2 "dist/offline-deps/lsp/clangd/bin/clangd" /\
     downloadRustAnalyzer P w2 = (Ok rustAnalyzerVersion, w3) /\
     present w3 "dist/offline-deps/lsp/rust-analyzer/bin/rust-analyzer" /\
     installNpmPackages P w3 = (Ok npmVersions, w4) /\
     present w4 "dist/offline-deps/node_modules" /\
     createManifest P RIPGREP_VERSION clangdVersion rustAnalyzerVersion npmVersions w4
       = (Ok tt, w5) /\
     fs w5 !! manifestPath
       = Some (File (JSON_stringify P (to_json
           {| version := "1.0.0";
              created := clock P (logged (JS.nl +:+ "=== Creating manifest ===") w4);
              platform := "linux"; arch := "x64";
              components := {| ripgrep := RIPGREP_VERSION; clangd := clangdVersion;
                               rustAnalyzer := rustAnalyzerVersion;
                               npmPackages := npmVersions |} |})) mode) /\
     (main P w).1 = Ok tt) /\
  ((main P w).1 <> Ok tt -> ~ Exists writes_manifest new).
Proof.
  intros Hgrows.
  assert (Hret : Exists writes_manifest new -> exists w', main P w = (Ok tt, w')).
  { intros Hbad. apply main_hit_Ok. by eapply hit_intro. }
  split.
  - intros Hbad. destruct (Hret Hbad) as [w' Hmain].
    destruct (main_Ok_inv P _ _ _ Hmain)
      as (w0 & w1 & w2 & w3 & w4 & w5 & cl & ra & npm & mode & H).
    exists w0, w1, w2, w3, w4, w5, cl, ra, npm, mode.
    rewrite Hmain. simpl. intuition.
  - intros Hfail Hbad. destruct (Hret Hbad) as [w' Hmain]. by rewrite Hmain in Hfail.
Qed.
End ManifestOrdering.

Lemma manifest_written_last_witness :
  (DownloadDeps.main (Sample.platform Sample.no_env) Sample.start).1 = Sys.Ok tt.
Proof.
  destruct (manifest_written_last (Sample.platform Sample.no_env) Sample.start
              (Sys.events (DownloadDeps.main (Sample.platform Sample.no_env) Sample.start).2))
    as [Hwritten _]; [reflexivity |].
  destruct Hwritten as (w0 & w1 & w2 & w3 & w4 & w5 & cl & ra & npm & mode & H).
  - apply Exists_exists. eexists. split.
    + apply list_elem_of_lookup. exists 14%nat. vm_compute. reflexivity.
    + eexists. reflexivity.
  - apply H.
Defined.

(** ** Two runs of the acquisition script *)

Section TwoRuns.
Import Sys DownloadDeps.


End TwoRuns.

(** ** The archive fetcher: [downloadFile], [extractTarGz], [extractZip] *)

Section ArchiveFetcher.
Import Sys DownloadDeps.
Local Open Scope sys_scope.



(** Both extractors throw exactly when the subprocess exits non-zero;
    [extractZip] puts the captured stderr into its error, [extractTarGz]
    throws a message made of the archive path alone. *)
Lemma extract_fails_iff (P : Platform) (archivePath destDir : string) (strip : Z) (w : World) :
  let tar := extractTarGz P archivePath destDir strip w in
  let zip := extractZip P archivePath destDir w in
  let unzip := run P ["unzip"; "-o"; "-q"; archivePath; "-d"; destDir] None w in
  (tar.1 = Ok tt \/ tar.1 = Throw {| message := "Failed to extract " +:+ archivePath |}) /\
  (exitCode unzip = 0%Z -> zip.1 = Ok tt) /\
  (exitCode unzip <> 0%Z ->
     zip.1 = Throw {| message := "Failed to extract " +:+ archivePath +:+ ": " +:+ stderr unzip |} /\
     JS.includes ("Failed to extract " +:+ archivePath +:+ ": " +:+ stderr unzip) (stderr unzip)
       = true).
Proof.
  cbv zeta. unfold extractTarGz, extractZip, bind, Bun_spawn. cbv zeta.
  split; [| split].
  - match goal with |- context [(?x =? 0)%Z] => destruct (Z.eqb_spec x 0) end;
      cbn [negb fst]; auto.
  - intros ->. done.
  - intros Hne. apply Z.eqb_neq in Hne. rewrite Hne. cbn [negb fst throw]. split; [done |].
    replace ("Failed to extract " +:+ archivePath +:+ ": "
               +:+ stderr (run P ["unzip"; "-o"; "-q"; archivePath; "-d"; destDir] None w))
      with (("Failed to extract " +:+ archivePath +:+ ": ")
              +:+ stderr (run P ["unzip"; "-o"; "-q"; archivePath; "-d"; destDir] None w)
              +:+ EmptyString)
      by by rewrite append_nil_right, !append_assoc'.
    apply includes_append.
Qed.

(** C3 fails on the code for [extractTarGz]: the subprocess exits with
    code 2 and a diagnostic on stderr, and the error thrown holds the
    archive path only; [extractZip], on the same subprocess result, does
    carry the diagnostic. *)
Theorem extractTarGz_drops_stderr :
  let archive := "dist/offline-deps/ripgrep-14.1.1-x86_64-unknown-linux-musl.tar.gz" in
  let proc := run broken_archive ["tar"; "-xzf"; archive; "-C"; "dist/offline-deps/ripgrep";
                                   "--strip-components=1"] None Sample.start in
  exitCode proc = 2%Z /\ stderr proc = "gzip: stdin: unexpected end of file" /\
  (exists e,
     (extractTarGz broken_archive archive "dist/offline-deps/ripgrep" 1 Sample.start).1 = Throw e /\
     message e = "Failed to extract " +:+ archive /\
     JS.includes (message e) (stderr proc) = false) /\
  (exists e,
     (extractZip broken_archive archive "dist/offline-deps/lsp" Sample.start).1 = Throw e /\
     JS.includes (message e) (stderr proc) = true).
Proof. cbv zeta. repeat split; eexists; repeat split; reflexivity. Qed.

End ArchiveFetcher.

(** ** The packaging script (package-offline-bundle.ts) *)

Section Packaging.
Import Sys PackageBundle.
Local Open Scope sys_scope.

(** C7: when the dependency root does not exist, the packaging script
    prints its two error lines and exits with code 1; nothing else
    happens: no subprocess, no fetch, no write, and the file system is
    left as it was. *)
Theorem packaging_requires_deps (P : Platform) (w : World) :
  fs w !! DEPS_DIR = None ->
  let r := run_script (main P) w in
  r.1 = 1%Z /\
  err r.2 = err w ++ ["Error: Dependencies not found at dist/offline-deps";
                      "Please run 'bun run script/download-offline-deps.ts' first"] /\
  out r.2 = out w ++ ["=== OpenCode Offline Bundle Packager ==="] /\
  events r.2 = events w /\
  fs r.2 = fs w.
Proof.
  intros Hdeps. cbv zeta.
  unfold run_script, main, bind, console_log, catch, fs_stat. cbn [fs logged].
  rewrite Hdeps. cbn. by rewrite <- app_assoc.
Qed.

Lemma packaging_requires_deps_witness :
  (run_script (main (Sample.platform Sample.no_env)) Sample.start).1 = 1%Z.
Proof.
  apply (packaging_requires_deps (Sample.platform Sample.no_env) Sample.start).
  reflexivity.
Defined.

(** C5: the launcher is written to opencode-offline in the bundle root
    and made executable. Its commands are, in this order: the
    assignment of SCRIPT_DIR to the directory of the script, the exports
    of OPENCODE_OFFLINE_MODE=true, of OPENCODE_OFFLINE_DEPS_PATH as
    $SCRIPT_DIR/deps and of the three OPENCODE_DISABLE_ flags as true,
    and last the exec of $SCRIPT_DIR/bin/opencode with "$@". *)
Theorem launcher_contents (w : World) :
  (exists w', createWrapperScript w = (Ok tt, w') /\
              fs w' !! (BUNDLE_DIR +:+ "/opencode-offline")
                = Some (File wrapperScript 493)) /\
  commands wrapperScript = [
    "SCRIPT_DIR=" +:+ JS.dq +:+ "$(cd " +:+ JS.dq +:+ "$(dirname " +:+ JS.dq
      +:+ "${BASH_SOURCE[0]}" +:+ JS.dq +:+ ")" +:+ JS.dq +:+ " && pwd)" +:+ JS.dq;
    "export OPENCODE_OFFLINE_MODE=true";
    "export OPENCODE_OFFLINE_DEPS_PATH=" +:+ JS.dq +:+ "$SCRIPT_DIR/deps" +:+ JS.dq;
    "export OPENCODE_DISABLE_AUTOUPDATE=true";
    "export OPENCODE_DISABLE_LSP_DOWNLOAD=true";
    "export OPENCODE_DISABLE_MODELS_FETCH=true";
    "exec " +:+ JS.dq +:+ "$SCRIPT_DIR/bin/opencode" +:+ JS.dq +:+ " "
      +:+ JS.dq +:+ "$@" +:+ JS.dq
  ].
Proof.
  split; [| reflexivity].
  unfold createWrapperScript, bind, console_log, Bun_write, fs_chmod.
  cbn [fs set_fs emit logged]. rewrite lookup_insert_eq.
  eexists. split; [reflexivity |]. cbn [fs set_fs logged].
  by rewrite lookup_insert_eq.
Qed.

End Packaging.

(** ** The manifest of the bundle *)

Section BundleManifest.
Import Sys PackageBundle.
Local Open Scope sys_scope.

Lemma assign_other (key k : string) (v : Json.json) (fields : list (string * Json.json)) :
  k <> key -> Json.lookup key (Json.assign k v fields) = Json.lookup key fields.
Proof.
  intros Hk. apply String.eqb_neq in Hk.
  induction fields as [|[k' x] fields IH]; simpl.
  - by rewrite Hk.
  - destruct (String.eqb_spec k' k) as [->|]; simpl; [by rewrite Hk |].
    by rewrite IH.
Qed.

Lemma createBundle_Ok_inv (P : Platform) (buildDir : string) (w w' : World)
    (content : string) (mode : N) (fields : list (string * Json.json)) :
  fs w !! DownloadDeps.manifestPath = Some (File content mode) ->
  JSON_parse P content = Some (Json.JObj fields) ->
  createBundle P buildDir w = (Ok tt, w') ->
  exists mode',
    fs w' !! bundleManifestPath
    = Some (File (JSON_stringify P (Json.JObj (inject P fields))) mode').
Proof.
  intros Hfile Hparse H. unfold createBundle in H. cbv zeta in H. returned H.
  assert (Hread : fs w6 !! DownloadDeps.manifestPath = Some (File content mode)).
  { rewrite (fs_copyFile_Ok _ _ _ _ _ Hstep5) by by vm_compute.
    apply fs_mkdir_Ok in Hstep4 as (_ & _ & ->); [| by vm_compute | untouched].
    cbn [fs logged].
    rewrite (shell_cp_r_Ok _ _ _ _ _ Hstep3) by by vm_compute.
    cbn [fs logged].
    rewrite (fs_chmod_other _ _ _ _ _ Hstep2) by by vm_compute.
    rewrite (fs_copyFile_Ok _ _ _ _ _ Hstep1) by by vm_compute.
    cbn [fs logged].
    apply fs_mkdir_Ok in Hstep0 as (_ & _ & ->); [| by vm_compute | untouched].
    apply fs_mkdir_Ok in Hstep as (_ & _ & ->); [| by vm_compute | untouched].
    cbn [fs set_fs logged]. by rewrite remove_tree_other by by vm_compute. }
  apply fs_readFile_Ok in Hstep6 as [-> [mode6 Hfile6]].
  change (Path.join [DEPS_DIR; "manifest.json"]) with DownloadDeps.manifestPath in Hfile6.
  rewrite Hread in Hfile6. injection Hfile6 as <- _.
  rewrite Hparse in H. unfold inject.
  unfold bind, process_env, ret in H.
  destruct (env P "BUNDLE_VERSION") as [bv|]; [destruct (JS.truthy bv) |];
    (destruct (env P "BUNDLE_COMMIT_SHA") as [sha|]; [destruct (JS.truthy sha) |]);
    cbn in H; injection H as <-; eexists; cbn [fs set_fs emit logged];
    by rewrite lookup_insert_eq.
Qed.

(** C4, as stated, fails: BUNDLE_VERSION is supplied, as the empty
    string, and the manifest of the bundle has no bundleVersion. *)
Lemma empty_bundle_version_not_injected :
  let P := Sample.platform empty_version in
  let r := createBundle P "packages/opencode/dist/opencode-linux-x64" (built P) in
  env P "BUNDLE_VERSION" = Some EmptyString /\
  r.1 = Ok tt /\
  exists content mode manifest,
    fs r.2 !! bundleManifestPath = Some (File content mode) /\
    JSON_parse P content = Some manifest /\
    Json.get "bundleVersion" manifest = None.
Proof.
  cbv zeta. split; [reflexivity |]. split; [vm_compute; reflexivity |].
  eexists _, _, _. split; [vm_compute; reflexivity |].
  split; vm_compute; reflexivity.
Qed.

(** C4 (amended): the assembler reads back the manifest the generator
    wrote and writes to the bundle root an object with the same
    properties, in the same order and with the same values, followed by
    bundleVersion when BUNDLE_VERSION is set to a non-empty string and by
    commitSha when BUNDLE_COMMIT_SHA is set to a non-empty string; a
    variable that is unset or empty adds nothing. *)
Theorem bundle_manifest_round_trip (P : Platform) (buildDir : string) (w w' : World)
    (m : DownloadDeps.Manifest) (mode : N) :
  fs w !! DownloadDeps.manifestPath
    = Some (File (JSON_stringify P (DownloadDeps.to_json m)) mode) ->
  JSON_parse P (JSON_stringify P (DownloadDeps.to_json m)) = Some (DownloadDeps.to_json m) ->
  createBundle P buildDir w = (Ok tt, w') ->
  exists bundled mode',
    fs w' !! bundleManifestPath = Some (File (JSON_stringify P (Json.JObj bundled)) mode') /\
    bundled = Json.entries (DownloadDeps.to_json m)
                ++ injected "bundleVersion" (env P "BUNDLE_VERSION")
                ++ injected "commitSha" (env P "BUNDLE_COMMIT_SHA") /\
    (forall key, key <> "bundleVersion" -> key <> "commitSha" ->
       Json.lookup key bundled = Json.get key (DownloadDeps.to_json m)) /\
    Json.lookup "bundleVersion" bundled
      = match env P "BUNDLE_VERSION" with
        | Some (String c v) => Some (Json.JStr (String c v))
        | _ => None
        end /\
    Json.lookup "commitSha" bundled
      = match env P "BUNDLE_COMMIT_SHA" with
        | Some (String c v) => Some (Json.JStr (String c v))
        | _ => None
        end.
Proof.
  intros Hfile Hparse H.
  destruct (createBundle_Ok_inv P buildDir w w' _ mode _ Hfile Hparse H) as [mode' Hw].
  exists (inject P (Json.entries (DownloadDeps.to_json m))), mode'.
  split; [exact Hw |]. unfold inject, injected. cbn [Json.entries DownloadDeps.to_json].
  destruct (env P "BUNDLE_VERSION") as [[|c1 bv]|];
    destruct (env P "BUNDLE_COMMIT_SHA") as [[|c2 sha]|];
    cbn [JS.truthy]; (split; [reflexivity |]); (split; [| split; reflexivity]);
    intros key H1 H2;
    repeat (rewrite assign_other by congruence);
    reflexivity.
Qed.

Lemma bundle_manifest_round_trip_witness :
  let P := Sample.platform versioned in
  exists bundled mode',
    fs (createBundle P "packages/opencode/dist/opencode-linux-x64" (built P)).2
      !! bundleManifestPath
      = Some (File (JSON_stringify P (Json.JObj bundled)) mode') /\
    Json.lookup "bundleVersion" bundled = Some (Json.JStr "1.4.0") /\
    Json.lookup "commitSha" bundled = Some (Json.JStr "9f2c1ab") /\
    Json.lookup "created" bundled = Some (Json.JStr "2024-01-15T10:30:00.000Z").
Proof.
  intros P.
  destruct (bundle_manifest_round_trip P "packages/opencode/dist/opencode-linux-x64"
              (built P)
              (createBundle P "packages/opencode/dist/opencode-linux-x64" (built P)).2
              {| DownloadDeps.version := "1.0.0";
                 DownloadDeps.created := "2024-01-15T10:30:00.000Z";
                 DownloadDeps.platform := "linux"; DownloadDeps.arch := "x64";
                 DownloadDeps.components :=
                   {| DownloadDeps.ripgrep := "14.1.1"; DownloadDeps.clangd := "18.1.3";
                      DownloadDeps.rustAnalyzer := "2024-01-08";
                      DownloadDeps.npmPackages :=
                        [("pyright", Json.JStr "^1.1.350");
                         ("typescript", Json.JStr "^5.3.3");
                         ("opencode-anthropic-auth", Json.JStr "0.0.9")] |} |}
              420%N)
    as (bundled & mode' & Hfile & _ & Hkeep & Hbv & Hsha);
    [vm_compute; reflexivity | vm_compute; reflexivity | vm_compute; reflexivity |].
  exists bundled, mode'. split; [exact Hfile |]. split; [exact Hbv |]. split; [exact Hsha |].
  rewrite Hkeep by discriminate. reflexivity.
Defined.

End BundleManifest.

(** * Further properties *)

(** ** The request store (request-capture.ts) *)

Section RequestStore.
Import RequestCapture.

(** X1: the store keeps the last request of every session: a capture is
    read back under its session, replaces the earlier capture of that
    session and leaves the other sessions alone; clearing a session
    removes its request and nothing else. *)
Theorem store_last_request (requests : Store) (request : CapturedRequest) (sid : string) :
  get (sessionID request) (capture request requests) = Some request /\
  (sid <> sessionID request -> get sid (capture request requests) = get sid requests) /\
  (forall earlier, sessionID earlier = sessionID request ->
     capture request (capture earlier requests) = capture request requests) /\
  get sid (clear sid requests) = None /\
  (forall other, other <> sid -> get other (clear sid requests) = get other requests) /\
  clear (sessionID request) (capture request (clear (sessionID request) requests))
    = clear (sessionID request) requests.
Proof.
  unfold get, capture, clear, Store in *. repeat split.
  - apply lookup_insert_eq.
  - intros H. by rewrite lookup_insert_ne.
  - intros earlier ->. apply insert_insert_eq.
  - apply lookup_delete_eq.
  - intros other H. by rewrite lookup_delete_ne.
  - by rewrite delete_insert_eq, delete_delete_eq.
Qed.

End RequestStore.

(** ** The rendered command, read by a shell (request-capture.ts) *)

Section ShellReading.
Import RequestCapture.

Lemma shell_run_app (st : shell_state) (a b : string) :
  shell_run st (a +:+ b) = shell_run (shell_run st a) b.
Proof.
  revert st. induction a as [|c a IH]; intros st; [done |].
  rewrite append_cons. simpl. apply IH.
Qed.

(** Inside single quotes, the escaped text reads as the text. *)
Lemma run_shellEscape (s : string) (ws : list string) (w : string) :
  shell_run {| words := ws; word := Some w; mode := Quoted |} (shellEscape s)
  = {| words := ws; word := Some (w +:+ s); mode := Quoted |}.
Proof.
  revert w. induction s as [|c s IH]; intros w.
  - by rewrite append_nil_right.
  - cbn [shellEscape]. destruct (Ascii.eqb_spec c "'") as [->|Hc].
    + rewrite shell_run_app.
      change (shell_run {| words := ws; word := Some w; mode := Quoted |} "'\''")
        with {| words := ws; word := Some (w +:+ "'"); mode := Quoted |}.
      rewrite IH. by rewrite append_assoc'.
    + cbn [shell_run]. unfold shell_step at 1. cbn [mode].
      apply Ascii.eqb_neq in Hc. rewrite Hc. unfold add_char. cbn [words word from_option id].
      rewrite IH. by rewrite append_assoc'.
Qed.





Lemma reads_quoted (s : string) : reads ("'" +:+ shellEscape s +:+ "'") [] s.
Proof.
  intros ws. rewrite !shell_run_app.
  change (shell_run {| words := ws; word := None; mode := Plain |} "'")
    with {| words := ws; word := Some EmptyString; mode := Quoted |}.
  rewrite run_shellEscape. by rewrite app_nil_r.
Qed.



Lemma run_separator (ws : list string) (w : string) :
  shell_run {| words := ws; word := Some w; mode := Plain |} separator
  = {| words := ws ++ [w]; word := None; mode := Plain |}.
Proof.
  change separator with (String " " (String "\" (String "010" "  "))).
  cbn [shell_run]. unfold shell_step, flush. cbn. by rewrite <- !app_assoc.
Qed.

Lemma reads_join (parts : list string) (specs : list (list string * string)) :
  Forall2 (fun part spec => reads part spec.1 spec.2) parts specs ->
  parts <> [] ->
  forall ws,
    flush (shell_run {| words := ws; word := None; mode := Plain |} (JS.join separator parts))
    = {| words := ws ++ flat_map spoken specs; word := None; mode := Plain |}.
Proof.
  induction 1 as [|part spec parts specs Hfirst Hrest IH]; [done |]. intros _ ws.
  destruct Hrest as [|part' spec' parts specs Hsecond Hrest].
  - cbn [JS.join flat_map]. rewrite Hfirst. unfold flush, spoken. cbn [words word mode].
    by rewrite app_nil_r, app_assoc.
  - change (JS.join separator (part :: part' :: parts))
      with (part +:+ separator +:+ JS.join separator (part' :: parts)).
    rewrite !shell_run_app, Hfirst, run_separator, IH by done.
    change (flat_map spoken (spec :: spec' :: specs))
      with ((spec.1 ++ [spec.2]) ++ flat_map spoken (spec' :: specs)).
    by rewrite <- !app_assoc.
Qed.

Lemma shell_words_join (parts : list string) (specs : list (list string * string)) :
  Forall2 (fun part spec => reads part spec.1 spec.2) parts specs ->
  parts <> [] ->
  shell_words (JS.join separator parts) = Some (flat_map spoken specs).
Proof.
  intros Hparts Hne. pose proof (reads_join parts specs Hparts Hne []) as H.
  unfold shell_words. cbv zeta.
  replace (mode (shell_run {| words := []; word := None; mode := Plain |}
                   (JS.join separator parts)))
    with (mode (flush (shell_run {| words := []; word := None; mode := Plain |}
                   (JS.join separator parts)))) by done.
  by rewrite H.
Qed.



(** X2: a single-quoted [shellEscape]d text is one shell word, and the
    word is the text: whatever the text holds, quotes included, nothing
    leaks out of the quotes. *)
Theorem shellEscape_round_trip (s : string) :
  shell_words ("'" +:+ shellEscape s +:+ "'") = Some [s].
Proof.
  apply (shell_words_join ["'" +:+ shellEscape s +:+ "'"] [([], s)]); [| done].
  repeat constructor. apply reads_quoted.
Qed.



End ShellReading.

(** ** The three resolvers are one (offline/index.ts) *)

Section ResolversAgree.
Import Offline.

Lemma normalize_determined (s1 s2 : string) :
  JS.truthy s1 = true -> JS.truthy s2 = true ->
  Path.isAbsolute s1 = Path.isAbsolute s2 ->
  Path.segments s1 = Path.segments s2 ->
  Path.trailingSeparator s1 = Path.trailingSeparator s2 ->
  Path.normalize s1 = Path.normalize s2.
Proof.
  destruct s1 as [|c1 s1]; [done |]. destruct s2 as [|c2 s2]; [done |].
  intros _ _ Habs Hsegs Htrail. unfold Path.normalize. cbv match.
  by rewrite Habs, Hsegs, Htrail.
Qed.

Lemma endsWith_suffix (p t : string) :
  JS.truthy t = true -> JS.endsWith (p +:+ t) "/" = JS.endsWith t "/".
Proof.
  intros Ht. induction p as [|c p IH]; [done |].
  rewrite append_cons. unfold JS.endsWith at 1; fold JS.endsWith. rewrite IH.
  replace (String c (p +:+ t) =? "/")%string with false; [done |].
  symmetry. apply String.eqb_neq. intros [= _ H]. destruct p, t; done.
Qed.

Lemma join_last (l : list string) (x : string) :
  exists p, JS.join "/" (l ++ [x]) = p +:+ x.
Proof.
  induction l as [|a l [p IH]]; [by exists EmptyString |].
  exists (a +:+ "/" +:+ p).
  change ((a :: l) ++ [x]) with (a :: (l ++ [x])).
  destruct (l ++ [x]) as [|y rest] eqn:Hl; [by destruct l |].
  change (JS.join "/" (a :: y :: rest)) with (a +:+ "/" +:+ JS.join "/" (y :: rest)).
  by rewrite IH, !append_assoc'.
Qed.

Lemma trailing_join (l : list string) (x : string) :
  JS.truthy x = true ->
  Path.trailingSeparator (JS.join "/" (l ++ [x])) = Path.trailingSeparator x.
Proof.
  intros Hx. destruct (join_last l x) as [p ->]. by apply endsWith_suffix.
Qed.

Lemma normalize_join_agree (h1 h2 : string) (t1 t2 : list string) :
  JS.truthy h1 = true -> JS.truthy h2 = true ->
  JS.truthy (List.last (h1 :: t1) EmptyString) = true ->
  JS.truthy (List.last (h2 :: t2) EmptyString) = true ->
  Path.isAbsolute h1 = Path.isAbsolute h2 ->
  Path.trailingSeparator (List.last (h1 :: t1) EmptyString)
  = Path.trailingSeparator (List.last (h2 :: t2) EmptyString) ->
  Path.normalize_segments (negb (Path.isAbsolute h1))
    (JS.split Path.slash h1 ++ concat (map (JS.split Path.slash) t1))
  = Path.normalize_segments (negb (Path.isAbsolute h1))
      (JS.split Path.slash h2 ++ concat (map (JS.split Path.slash) t2)) ->
  Path.normalize (JS.join "/" (h1 :: t1)) = Path.normalize (JS.join "/" (h2 :: t2)).
Proof.
  intros Hh1 Hh2 Hx1 Hx2 Habs Htrail Hsegs.
  apply normalize_determined.
  - destruct h1; [done |]. by destruct t1.
  - destruct h2; [done |]. by destruct t2.
  - by rewrite !isAbsolute_join.
  - unfold Path.segments. rewrite !isAbsolute_join, !split_join by done.
    by rewrite <- Habs.
  - rewrite (app_removelast_last EmptyString (l := h1 :: t1)) by done.
    rewrite (app_removelast_last EmptyString (l := h2 :: t2)) by done.
    by rewrite !trailing_join.
Qed.

(** X4: the package and language-server resolvers are the binary
    resolver at a fixed sub-path: [resolveNpmPackage(pkg)] is
    [resolveBinary(pkg, "node_modules")] and [resolveLspBinary(l, b)] is
    [resolveBinary(b, "lsp/" + l + "/bin")], for all names, empty ones
    included. *)
Theorem resolvers_agree (F : Flag) :
  (forall pkg, resolveNpmPackage F pkg = resolveBinary F pkg "node_modules") /\
  (forall lspName binaryName,
     resolveLspBinary F lspName binaryName
     = resolveBinary F binaryName ("lsp/" +:+ lspName +:+ "/bin")).
Proof.
  split; [done |]. intros l b. unfold resolveLspBinary, resolveBinary. cbv zeta.
  destruct (_ || _); [done |]. f_equal.
  generalize (default EmptyString (getDepsPath F)). intros d.
  assert (Hmid : JS.split Path.slash ("lsp/" +:+ l +:+ "/bin")
                 = ["lsp"] ++ JS.split Path.slash l ++ ["bin"]).
  { change ("lsp/" +:+ l +:+ "/bin")
      with ("lsp" +:+ String Path.slash (l +:+ String Path.slash "bin")).
    by rewrite !split_append. }
  assert (Htrail : Path.trailingSeparator ("lsp/" +:+ l +:+ "/bin") = false).
  { change ("lsp/" +:+ l +:+ "/bin") with ("lsp/" +:+ l +:+ "/" +:+ "bin").
    rewrite <- !append_assoc'. unfold Path.trailingSeparator. by rewrite endsWith_suffix. }
  unfold Path.join.
  destruct d as [|cd d], l as [|cl l], b as [|cb b];
    repeat (first [ rewrite filter_cons_True by done
                  | rewrite filter_cons_False by (by intros ?) ]);
    rewrite filter_nil.
  all: apply normalize_join_agree; [done | done | done | done | done | | ].
  all: cbn [List.last map concat]; rewrite ?Htrail, ?Hmid; try done.
  all: unfold Path.normalize_segments; rewrite ?fold_left_app; reflexivity.
Qed.

End ResolversAgree.

(** ** What the acquisitions return and leave (download-offline-deps.ts) *)

Section AcquisitionResults.
Import Sys DownloadDeps.
Local Open Scope sys_scope.
Variable P : Platform.




Lemma fs_unlink_gone (p : string) (w w' : World) (u : unit) :
  fs_unlink p w = (Ok u, w') -> fs w' !! p = None.
Proof.
  unfold fs_unlink. destruct (fs w !! p) as [[|c m]|]; [done | | done].
  intros [= _ <-]. simpl. by rewrite lookup_delete_eq.
Qed.

Lemma fs_chmod_sets (p : string) (mode : N) (w w' : World) (u : unit) :
  fs_chmod p mode w = (Ok u, w') ->
  fs w' !! p = Some Dir \/ exists content, fs w' !! p = Some (File content mode).
Proof.
  unfold fs_chmod. destruct (fs w !! p) as [[|c m]|] eqn:Hp; [| | done].
  - intros [= _ <-]. by left.
  - intros [= _ <-]. right. exists c. simpl. by rewrite lookup_insert_eq.
Qed.

Lemma fetch_Ok (url : string) (w w' : World) (r : Response) :
  fetch P url w = (Ok r, w') -> net P url w = Some r /\ w' = emit (EvFetch url) w.
Proof. unfold fetch. destruct (net P url w); [| done]. by intros [= -> <-]. Qed.

Lemma response_json_Ok (r : Response) (w w' : World) (release : Release) :
  response_json r w = (Ok release, w') -> json r = Some release /\ w' = w.
Proof. unfold response_json. destruct (json r); [| done]. by intros [= -> <-]. Qed.

(** X6: when [downloadRipgrep] returns, it returns the pinned version,
    the temporary archive is gone from the dependency root, and
    ripgrep/rg is there with mode 0o755 (a directory of that name is
    left as it is). *)
Theorem downloadRipgrep_leaves (w w' : World) (v : string) :
  downloadRipgrep P w = (Ok v, w') ->
  v = "14.1.1" /\
  fs w' !! "dist/offline-deps/ripgrep-14.1.1-x86_64-unknown-linux-musl.tar.gz" = None /\
  (fs w' !! "dist/offline-deps/ripgrep/rg" = Some Dir \/
   executable w' "dist/offline-deps/ripgrep/rg").
Proof.
  unfold downloadRipgrep. cbv zeta. intros H. returned H.
  split; [done |].
  match goal with Hc : fs_chmod _ _ _ = _, Hu : fs_unlink _ _ = _ |- _ =>
    split;
    [ cbn [fs logged]; rewrite (fs_chmod_other _ _ _ _ _ Hc) by (by vm_compute);
      cbn [fs logged]; exact (fs_unlink_gone _ _ _ _ Hu)
    | exact (fs_chmod_sets _ _ _ _ _ Hc) ]
  end.
Qed.

(** X7: when [downloadRustAnalyzer] returns, it returns the tag of the
    release the hosting API answered with; the binary is a file with
    mode 0o755 that holds what [gunzip -c] wrote to its standard output,
    [gunzip] having exited with 0; and the temporary archive is gone. *)
Theorem downloadRustAnalyzer_leaves (w w' : World) (v : string) :
  downloadRustAnalyzer P w = (Ok v, w') ->
  (exists w0 response release,
     net P "https://api.github.com/repos/rust-lang/rust-analyzer/releases/latest" w0
       = Some response /\
     json response = Some release /\ v = tag_name release) /\
  (exists w0,
     let proc := run P ["gunzip"; "-c"; "dist/offline-deps/rust-analyzer.gz"] None w0 in
     exitCode proc = 0%Z /\
     fs w' !! "dist/offline-deps/lsp/rust-analyzer/bin/rust-analyzer"
       = Some (File (stdout proc) 493)) /\
  fs w' !! "dist/offline-deps/rust-analyzer.gz" = None.
Proof.
  unfold downloadRustAnalyzer. cbv zeta. intros H. returned H.
  apply fetch_Ok in Hstep as [Hnet _]. apply response_json_Ok in Hstep0 as [Hjson _].
  split; [by eexists _, _, _ |].
  pose proof (fs_unlink_gone _ _ _ _ Hstep7) as Hgone.
  pose proof (fs_unlink_Ok _ _ _ _ Hstep7) as Hkept.
  split; [| exact Hgone]. exists w4.
  unfold Bun_spawn in Hstep4. injection Hstep4 as <- <-.
  apply negb_false_iff, Z.eqb_eq in Hcond0. split; [exact Hcond0 |].
  unfold Bun_write in Hstep5. injection Hstep5 as _ <-.
  unfold fs_chmod in Hstep6. cbn [fs set_fs emit] in Hstep6.
  rewrite lookup_insert_eq in Hstep6. injection Hstep6 as _ <-.
  cbn [fs logged]. rewrite Hkept by (by vm_compute).
  cbn [fs set_fs emit]. by rewrite lookup_insert_eq.
Qed.

End AcquisitionResults.

(** ** Joining a directory and a clean relative path *)

Section JoinClean.

Lemma join_of_split (c : ascii) (s : string) :
  JS.join (String c EmptyString) (JS.split c s) = s.
Proof.
  induction s as [|a s IH]; [done |]. simpl.
  pose proof (split_nonempty c s) as Hne.
  destruct (Ascii.eqb_spec a c) as [->|Hac].
  - destruct (JS.split c s) as [|x xs]; [done |].
    change (JS.join (String c EmptyString) (EmptyString :: x :: xs))
      with (String c (JS.join (String c EmptyString) (x :: xs))).
    by rewrite IH.
  - destruct (JS.split c s) as [|x xs]; [done |].
    destruct xs as [|y ys].
    + simpl in *. by rewrite IH.
    + change (JS.join (String c EmptyString) (String a x :: y :: ys))
        with (String a (JS.join (String c EmptyString) (x :: y :: ys))).
      by rewrite IH.
Qed.

Lemma join_app (sep : string) (l1 l2 : list string) :
  l1 <> [] -> l2 <> [] ->
  JS.join sep (l1 ++ l2) = JS.join sep l1 +:+ sep +:+ JS.join sep l2.
Proof.
  intros H1 H2. induction l1 as [|x l1 IH]; [done |].
  destruct l1 as [|y l1].
  - destruct l2; [done |]. reflexivity.
  - change (JS.join sep ((x :: y :: l1) ++ l2))
      with (x +:+ sep +:+ JS.join sep ((y :: l1) ++ l2)).
    rewrite IH by done.
    change (JS.join sep (x :: y :: l1)) with (x +:+ sep +:+ JS.join sep (y :: l1)).
    by rewrite !append_assoc'.
Qed.

Lemma whole_no_trailing (e : string) :
  whole Path.slash e -> JS.endsWith e "/" = false.
Proof.
  unfold whole. induction e as [|a e IH]; [done |]. intros H.
  pose proof (whole_head _ _ _ H) as Ha. simpl in H.
  apply Ascii.eqb_neq in Ha. rewrite Ha in H.
  pose proof (split_nonempty Path.slash e).
  destruct (JS.split Path.slash e) as [|x xs] eqn:Hs; [done |].
  injection H as -> ->. unfold JS.endsWith; fold JS.endsWith. rewrite IH by done.
  rewrite orb_false_r. apply String.eqb_neq. intros [= -> _].
  by rewrite Ascii.eqb_refl in Ha.
Qed.

Lemma fold_regular (allow : bool) (l acc : list string) :
  Forall (fun x => nontrivial x /\ x <> "..") l ->
  fold_left (Path.norm_step allow) l acc = rev l ++ acc.
Proof.
  revert acc. induction l as [|x l IH]; intros acc H; [done |].
  apply Forall_cons in H as [[Hx Hd] H]. simpl.
  rewrite norm_step_regular, IH by done. by rewrite <- app_assoc.
Qed.

Lemma clean_truthy (e : string) : clean e -> JS.truthy e = true.
Proof.
  destruct e; [| done]. intros H. apply Forall_cons in H as [[[H _] _] _]. done.
Qed.

Lemma clean_no_trailing (e : string) : clean e -> Path.trailingSeparator e = false.
Proof.
  intros H. unfold Path.trailingSeparator.
  pose proof (split_whole Path.slash e) as Hw.
  pose proof (join_of_split Path.slash e) as Hj.
  pose proof (split_nonempty Path.slash e) as Hne.
  unfold clean in H.
  destruct (JS.split Path.slash e) as [|x xs] using rev_ind; [done |]. clear IHxs.
  apply Forall_app in Hw as [_ [Hx _]%Forall_cons].
  apply Forall_app in H as [_ [[[Hx' _] _] _]%Forall_cons].
  destruct (join_last xs x) as [p Hp].
  change (String Path.slash EmptyString) with "/" in Hj.
  rewrite <- Hj, Hp, endsWith_suffix by by destruct x.
  by apply whole_no_trailing.
Qed.

Lemma normalize_body (s : string) :
  JS.truthy s = true -> JS.truthy (JS.join "/" (Path.segments s)) = true ->
  Path.normalize s
  = (if Path.isAbsolute s then "/" else EmptyString)
      +:+ JS.join "/" (Path.segments s)
      +:+ (if Path.trailingSeparator s then "/" else EmptyString).
Proof.
  destruct s as [|c s]; [done |]. intros _. unfold Path.normalize. cbv match.
  by destruct (JS.join "/" _).
Qed.

Lemma join_clean (base e : string) :
  canonical base -> clean e -> Path.join [base; e] = base +:+ "/" +:+ e.
Proof.
  intros [Hsegs Hbase] He.
  assert (Hb : JS.truthy base = true) by by destruct base.
  pose proof (clean_truthy e He) as Het.
  unfold Path.join. rewrite !filter_cons_True, filter_nil by done.
  assert (Habs : Path.isAbsolute (JS.join "/" [base; e]) = Path.isAbsolute base)
    by by apply isAbsolute_join.
  assert (Hs : Path.segments (JS.join "/" [base; e])
               = Path.segments base ++ JS.split Path.slash e).
  { unfold Path.segments. rewrite Habs, split_join. cbn [map concat].
    rewrite app_nil_r. unfold Path.normalize_segments.
    rewrite fold_left_app, fold_regular by done.
    by rewrite rev_app_distr, rev_involutive. }
  assert (Ht : Path.trailingSeparator (JS.join "/" [base; e]) = false).
  { change (JS.join "/" [base; e]) with (JS.join "/" ([base] ++ [e])).
    rewrite trailing_join by done. by apply clean_no_trailing. }
  pose proof (split_nonempty Path.slash e) as Hne.
  rewrite normalize_body.
  - rewrite Habs, Hs, Ht, join_app by done.
    change "/" with (String Path.slash EmptyString) at 3.
    rewrite join_of_split, append_nil_right.
    rewrite Hbase at 3. by rewrite !append_assoc'.
  - by destruct base.
  - rewrite Hs, join_app by done.
    destruct (JS.join "/" (Path.segments base)); [| done].
    rewrite append_nil_left. done.
Qed.

End JoinClean.

(** ** Copies of a tree *)

Section Copies.
Import Sys.

Lemma strip_Some (d p rest : string) :
  strip d p = Some rest <-> p = d +:+ "/" +:+ rest.
Proof.
  revert p. induction d as [|a d IH]; intros p.
  - rewrite append_nil_left. destruct p as [|c p]; simpl; [done |].
    destruct (Ascii.eqb_spec c "/") as [->|Hc].
    + split; by intros [= ->].
    + split; [done | by intros [= ? _]].
  - rewrite append_cons. destruct p as [|b p]; simpl; [done |].
    destruct (Ascii.eqb_spec a b) as [->|Hab].
    + rewrite IH. split; [by intros -> | by intros [= ->]].
    + split; [done | by intros [= ? _]].
Qed.

Lemma append_inj (a b c : string) : a +:+ b = a +:+ c -> b = c.
Proof.
  induction a as [|x a IH]; [by rewrite !append_nil_left |].
  rewrite !append_cons. intros [= H]. by apply IH.
Qed.

Lemma elem_of_rerooted (src dst k : string) (v : Node) (f : gmap string Node) :
  (k, v) ∈ rerooted src dst f <->
  exists rest, k = dst +:+ "/" +:+ rest /\ f !! (src +:+ "/" +:+ rest) = Some v.
Proof.
  unfold rerooted. rewrite list_elem_of_omap. split.
  - intros ([p n] & Hin & H). apply elem_of_map_to_list in Hin. simpl in H.
    destruct (strip src p) as [rest|] eqn:Hs; [| done]. injection H as <- <-.
    apply strip_Some in Hs as ->. by exists rest.
  - intros (rest & -> & Hf). exists (src +:+ "/" +:+ rest, v). split.
    + by apply elem_of_map_to_list.
    + simpl. by rewrite (proj2 (strip_Some src _ rest) eq_refl).
Qed.

(** The last entry for a key wins; when all entries for it agree, their
    value is what the store holds. *)
Lemma add_all_lookup (entries : list (string * Node)) (g : gmap string Node)
    (k : string) (v : Node) :
  (k, v) ∈ entries -> (forall v', (k, v') ∈ entries -> v' = v) ->
  add_all entries g !! k = Some v.
Proof.
  unfold add_all. revert g. induction entries as [|[k0 v0] entries IH]; intros g Hin Hall.
  - by apply elem_of_nil in Hin.
  - simpl. destruct (decide (Exists (fun e => e.1 = k) entries)) as [Hex|Hno].
    + apply Exists_exists in Hex as ([k1 v1] & Hin1 & Hk). simpl in Hk. subst k1.
      assert (v1 = v) as -> by (apply Hall; by right).
      apply IH; [done |]. intros v' Hv'. apply Hall. by right.
    + apply elem_of_cons in Hin as [[= <- <-]|Hin].
      * change (fold_left _ entries ?m) with (add_all entries m).
        rewrite add_all_other; [by rewrite lookup_insert_eq |].
        apply Forall_forall. intros e He Hk. apply Hno, Exists_exists. by exists e.
      * destruct Hno. apply Exists_exists. by exists (k, v).
Qed.

Lemma copies_lookup (src dst rest : string) (v : Node) (f g : gmap string Node) :
  f !! (src +:+ "/" +:+ rest) = Some v ->
  add_all (rerooted src dst f) g !! (dst +:+ "/" +:+ rest) = Some v.
Proof.
  intros Hf. apply add_all_lookup.
  - apply elem_of_rerooted. by exists rest.
  - intros v' (rest' & Heq & Hf')%elem_of_rerooted.
    do 2 apply append_inj in Heq. subst rest'. congruence.
Qed.

Lemma shell_cp_r_copies (src dst rest : string) (v : Node) (w w' : World) (u : unit) :
  shell_cp_r src dst w = (Ok u, w') ->
  fs w !! (src +:+ "/" +:+ rest) = Some v ->
  fs w' !! (dst +:+ "/" +:+ rest) = Some v.
Proof.
  unfold shell_cp_r. intros H Hf.
  pose proof (copies_lookup src dst rest v (fs w) (fs w) Hf) as Hc.
  destruct (rerooted src dst (fs w)) as [|e copies]; [done |].
  by injection H as _ <-.
Qed.

Lemma add_dir_same (d q : string) (n : Node) (f : gmap string Node) :
  f !! q = Some n -> add_dir d f !! q = Some n.
Proof.
  intros H. unfold add_dir. destruct (f !! d) eqn:Hd; [done |].
  rewrite lookup_insert_ne; [done |]. intros ->. congruence.
Qed.

Lemma add_dir_file (d q c : string) (m : N) (f : gmap string Node) :
  add_dir d f !! q = Some (File c m) -> f !! q = Some (File c m).
Proof.
  unfold add_dir. destruct (f !! d) eqn:Hd; [done |].
  destruct (decide (d = q)) as [->|]; [by rewrite lookup_insert_eq |].
  by rewrite lookup_insert_ne.
Qed.

(** [mkdir -p] changes no entry that exists, and creates no file. *)
Lemma fs_mkdir_same (p : string) (w w' : World) (u : unit) :
  fs_mkdir p w = (Ok u, w') ->
  (forall q n, fs w !! q = Some n -> fs w' !! q = Some n) /\
  (forall q c m, fs w' !! q = Some (File c m) -> fs w !! q = Some (File c m)).
Proof.
  unfold fs_mkdir. destruct (existsb _ _); [done |]. intros [= _ <-]. simpl. split.
  - intros q n H. apply add_dir_same.
    induction (parents p) as [|d ds IH]; simpl; [done |]. by apply add_dir_same.
  - intros q c m H. apply add_dir_file in H.
    induction (parents p) as [|d ds IH]; simpl in *; [done |].
    by apply IH, add_dir_file with d.
Qed.

Lemma remove_tree_file (d q : string) (n : Node) (f : gmap string Node) :
  remove_tree d f !! q = Some n -> f !! q = Some n.
Proof. unfold remove_tree. by intros [? _]%map_lookup_filter_Some. Qed.

Lemma Bun_write_other (dest content : string) (w w' : World) (u : unit) :
  Bun_write dest content w = (Ok u, w') -> forall q, q <> dest -> fs w' !! q = fs w !! q.
Proof. unfold Bun_write. intros [= _ <-] q Hq. simpl. by rewrite lookup_insert_ne. Qed.

Lemma fs_copyFile_copies (src dest : string) (w w' : World) (u : unit) :
  fs_copyFile src dest w = (Ok u, w') ->
  exists c m, fs w !! src = Some (File c m) /\ fs w' !! dest = Some (File c m).
Proof.
  unfold fs_copyFile. destruct (fs w !! src) as [[|c m]|]; [done | | done].
  intros [= _ <-]. exists c, m. split; [done |]. simpl. by rewrite lookup_insert_eq.
Qed.

Lemma add_all_from (entries : list (string * Node)) (g : gmap string Node)
    (k : string) (n : Node) :
  add_all entries g !! k = Some n -> g !! k = Some n \/ (k, n) ∈ entries.
Proof.
  unfold add_all. revert g. induction entries as [|[k0 v0] entries IH]; intros g H.
  - by left.
  - simpl in H. apply IH in H as [H|H]; [| right; by right].
    destruct (decide (k0 = k)) as [->|Hk].
    + rewrite lookup_insert_eq in H. injection H as ->. right. left.
    + rewrite lookup_insert_ne in H by done. by left.
Qed.

Lemma fs_stat_Ok (p : string) (w w' : World) (s : Stats) :
  fs_stat p w = (Ok s, w') -> w' = w /\ present w p.
Proof.
  unfold fs_stat, present. destruct (fs w !! p) as [[|c m]|]; [| | done];
    by intros [= _ <-].
Qed.

(** [await fs.unlink(p).catch(() => {})] *)
Lemma unlink_quietly (p : string) (w w' : World) (u : unit) :
  catch (fs_unlink p) (fun _ => ret tt) w = (Ok u, w') ->
  (forall q, q <> p -> fs w' !! q = fs w !! q) /\
  (fs w !! p <> Some Dir -> fs w' !! p = None).
Proof.
  unfold catch, fs_unlink, ret. destruct (fs w !! p) as [[|c m]|] eqn:Hp;
    intros [= _ <-]; split; try done.
  - intros q Hq. simpl. by rewrite lookup_delete_ne.
  - intros _. simpl. by rewrite lookup_delete_eq.
Qed.

End Copies.

(** ** What the bundle holds (package-offline-bundle.ts) *)

(** The end of [createBundle], from [JSON.parse] on, in all its cases. *)
Ltac manifest_cases H :=
  unfold Sys.bind, Sys.process_env, Sys.ret, PackageBundle.set_property,
    Sys.console_log, Sys.throw, Sys.Bun_write in H;
  destruct (Sys.env _ "BUNDLE_VERSION") as [?bv|]; [destruct (JS.truthy bv) |];
  (destruct (Sys.env _ "BUNDLE_COMMIT_SHA") as [?sha|]; [destruct (JS.truthy sha) |]);
  match type of H with
  | context [match ?m with Json.JNull => _ | _ => _ end] => destruct m
  | _ => idtac
  end;
  cbn in H.

Section BundleContents.
Import Sys PackageBundle.
Local Open Scope sys_scope.
Variable P : Platform.

Lemma createBundle_Ok_copies (buildDir : string) (w w' : World) (u : unit) :
  createBundle P buildDir w = (Ok u, w') ->
  (forall rest node,
     fs w !! (DEPS_DIR +:+ "/" +:+ rest) = Some node ->
     rest <> "opentui/libopentui.so" ->
     fs w' !! (BUNDLE_DIR +:+ "/deps/" +:+ rest) = Some node) /\
  (exists content mode,
     fs w !! Path.join [buildDir; "bin"; "opencode"] = Some (File content mode) /\
     fs w' !! (BUNDLE_DIR +:+ "/bin/opencode") = Some (File content 493)) /\
  (exists content mode,
     fs w !! "node_modules/.bun/@opentui+core-linux-x64@0.1.74/node_modules/@opentui/core-linux-x64/libopentui.so"
       = Some (File content mode) /\
     fs w' !! (BUNDLE_DIR +:+ "/deps/opentui/libopentui.so") = Some (File content mode)) /\
  present w' (BUNDLE_DIR +:+ "/deps") /\
  present w' bundleManifestPath.
Proof.
  intros H. unfold createBundle in H. cbv zeta in H. returned H.
  apply fs_readFile_Ok in Hstep6 as [-> _].
  assert (Htail : forall q, q <> bundleManifestPath -> fs w' !! q = fs w6 !! q).
  { intros q Hq. destruct (JSON_parse P a6) as [manifest|]; [| done].
    manifest_cases H; try discriminate H; injection H as _ <-;
      cbn [fs set_fs emit logged]; by rewrite lookup_insert_ne. }
  pose proof (fs_mkdir_same _ _ _ _ Hstep) as [Hup0 Hdown0].
  pose proof (fs_mkdir_same _ _ _ _ Hstep0) as [Hup1 Hdown1].
  pose proof (fs_mkdir_same _ _ _ _ Hstep4) as [Hup5 Hdown5].
  cbn [fs set_fs logged] in *.
  split; [| split; [| split; [| split]]].
  - intros rest node Hsrc Hne.
    rewrite Htail by (vm_compute; discriminate).
    rewrite (fs_copyFile_Ok _ _ _ _ _ Hstep5)
      by (intros Heq; vm_compute in Heq; congruence).
    apply Hup5.
    apply (shell_cp_r_copies _ _ rest node _ _ _ Hstep3). cbn [fs logged].
    rewrite (fs_chmod_other _ _ _ _ _ Hstep2) by (vm_compute; discriminate).
    rewrite (fs_copyFile_Ok _ _ _ _ _ Hstep1) by (vm_compute; discriminate).
    cbn [fs logged]. apply Hup1, Hup0.
    by rewrite remove_tree_other by by vm_compute.
  - destruct (fs_copyFile_copies _ _ _ _ _ Hstep1) as (c & m & Hsrc & Hdst).
    cbn [fs logged] in Hsrc. exists c, m. split.
    + by apply Hdown1, Hdown0, remove_tree_file in Hsrc.
    + rewrite Htail by (by vm_compute).
      rewrite (fs_copyFile_Ok _ _ _ _ _ Hstep5) by (by vm_compute).
      apply Hup5.
      rewrite (shell_cp_r_Ok _ _ _ _ _ Hstep3) by (by vm_compute).
      cbn [fs logged]. unfold fs_chmod in Hstep2. rewrite Hdst in Hstep2.
      injection Hstep2 as _ <-. cbn [fs set_fs]. apply lookup_insert_eq.
  - destruct (fs_copyFile_copies _ _ _ _ _ Hstep5) as (c & m & Hsrc & Hdst).
    exists c, m. split.
    + apply Hdown5 in Hsrc.
      rewrite (shell_cp_r_Ok _ _ _ _ _ Hstep3) in Hsrc by (by vm_compute).
      cbn [fs logged] in Hsrc.
      rewrite (fs_chmod_other _ _ _ _ _ Hstep2) in Hsrc by (by vm_compute).
      rewrite (fs_copyFile_Ok _ _ _ _ _ Hstep1) in Hsrc by (by vm_compute).
      cbn [fs logged] in Hsrc.
      by apply Hdown1, Hdown0, remove_tree_file in Hsrc.
    + by rewrite Htail by (by vm_compute).
  - apply fs_mkdir_Ok in Hstep0 as [Hdeps _]. unfold present in *.
    rewrite Htail by (by vm_compute).
    rewrite (fs_copyFile_Ok _ _ _ _ _ Hstep5) by (by vm_compute).
    destruct Hdeps as [n Hdeps]. exists n. apply Hup5.
    rewrite (shell_cp_r_Ok _ _ _ _ _ Hstep3) by (by vm_compute).
    cbn [fs logged].
    rewrite (fs_chmod_other _ _ _ _ _ Hstep2) by (by vm_compute).
    by rewrite (fs_copyFile_Ok _ _ _ _ _ Hstep1) by (by vm_compute).
  - unfold present. destruct (JSON_parse P a6) as [manifest|]; [| done].
    manifest_cases H; try discriminate H; injection H as _ <-;
      cbn [fs set_fs emit logged]; by rewrite lookup_insert_eq.
Qed.




End BundleContents.

(** ** How the scripts end *)

Section Exits.
Import Sys.
Variable allowed : Z -> Prop.

Lemma exits_total {A} (m : M A) :
  (forall w c, (m w).1 <> Exit c) -> exits allowed m.
Proof. intros H w c Hc. by destruct (H w c). Qed.

Lemma exits_bind {A B} (m : M A) (f : A -> M B) :
  exits allowed m -> (forall a, exits allowed (f a)) -> exits allowed (bind m f).
Proof.
  intros Hm Hf w c. unfold bind. specialize (Hm w).
  destruct (m w) as [[a|e|c'] w1]; simpl in *; [apply Hf | done |].
  intros [= <-]. by apply Hm.
Qed.

Lemma exits_catch {A} (m : M A) (h : Error -> M A) :
  exits allowed m -> (forall e, exits allowed (h e)) -> exits allowed (catch m h).
Proof.
  intros Hm Hh w c. unfold catch. specialize (Hm w).
  destruct (m w) as [[a|e|c'] w1]; simpl in *; [done | apply Hh | apply Hm].
Qed.

Lemma exits_process_exit {A} (c : Z) : allowed c -> exits allowed (@process_exit A c).
Proof. intros H w c' [= <-]. exact H. Qed.

End Exits.

(** One step of a proof that a script calls [process.exit] with allowed
    codes only: down to the primitives, none of which exits. *)
Ltac exits_step :=
  lazymatch goal with
  | |- exits _ (Sys.bind _ _) => apply exits_bind; [| intros ?]
  | |- exits _ (Sys.catch _ _) => apply exits_catch; [| intros ?]
  | |- exits _ (match ?x with _ => _ end) => destruct x
  | |- exits _ (Sys.process_exit _) => by apply exits_process_exit
  | |- exits _ _ =>
      apply exits_total; intros ? ?;
      unfold Sys.console_log, Sys.console_error, Sys.fetch, Sys.response_json,
        Sys.Bun_write, Sys.Bun_spawn, Sys.now, Sys.process_env, Sys.fs_rm, Sys.fs_mkdir,
        Sys.fs_unlink, Sys.fs_chmod, Sys.fs_rename, Sys.fs_copyFile, Sys.fs_readFile,
        Sys.fs_stat, Sys.fs_readdir, Sys.shell_cp_r, Sys.ret, Sys.throw,
        PackageBundle.set_property;
      repeat case_match; done
  end.

Section AcquisitionExit.
Import Sys DownloadDeps.
Local Open Scope sys_scope.
Variable P : Platform.




End AcquisitionExit.

Section PackagingExit.
Import Sys PackageBundle.
Local Open Scope sys_scope.
Variable P : Platform.

Lemma exits_packaging : exits (fun c => c = 1%Z) (main P).
Proof.
  unfold main, buildOpencode, createBundle, createWrapperScript, createReadme,
    createTarball.
  cbv zeta. repeat exits_step.
Qed.

Lemma createWrapperScript_Ok (w w' : World) (u : unit) :
  createWrapperScript w = (Ok u, w') ->
  present w' wrapperPath /\ (forall q, present w q -> present w' q).
Proof.
  unfold createWrapperScript. intros H. returned H.
  match goal with Hw : Bun_write _ _ _ = _, Hc : fs_chmod _ _ _ = _ |- _ =>
    apply fs_chmod_Ok in Hc as [Hp Hk];
    split; [exact Hp |]; intros q Hq; apply Hk;
    by apply (Bun_write_keeps _ _ _ _ _ Hw)
  end.
Qed.

Lemma createReadme_Ok (w w' : World) (u : unit) :
  createReadme w = (Ok u, w') ->
  present w' (BUNDLE_DIR +:+ "/README.md") /\ (forall q, present w q -> present w' q).
Proof.
  unfold createReadme. intros H. returned H.
  match goal with Hw : Bun_write _ _ _ = _ |- _ =>
    split; [| intros q Hq; by apply (Bun_write_keeps _ _ _ _ _ Hw)];
    unfold Bun_write in Hw; injection Hw as _ <-; unfold present;
    cbn [fs set_fs emit logged]; by rewrite lookup_insert_eq
  end.
Qed.

(** A tarball that returns was made: the archive is there, written by
    the [tar] of this run unless a directory had its name. *)
Lemma createTarball_Ok (w w' : World) (u : unit) :
  createTarball P w = (Ok u, w') ->
  present w' ("dist/" +:+ TARBALL_NAME) /\
  (forall q, q <> "dist/" +:+ TARBALL_NAME -> present w q -> present w' q) /\
  (fs w !! ("dist/" +:+ TARBALL_NAME) <> Some Dir ->
   exists w0,
     let proc := run P ["tar"; "-czf"; TARBALL_NAME; "opencode-offline-linux-x64"]
                   (Some "dist") w0 in
     exitCode proc = 0%Z /\
     exists node, ("dist/" +:+ TARBALL_NAME, node) ∈ files proc /\
                  fs w' !! ("dist/" +:+ TARBALL_NAME) = Some node).
Proof.
  unfold createTarball. cbv zeta. intros H. returned H.
  match goal with
    Hu : catch _ _ _ = _, Hs : Bun_spawn _ _ _ ?w0 = _, Hx : negb _ = false,
    Ht : fs_stat _ _ = _ |- _ =>
      apply unlink_quietly in Hu as [Hother Hgone];
      apply fs_stat_Ok in Ht as [-> [node Hnode]];
      apply negb_false_iff, Z.eqb_eq in Hx;
      unfold Bun_spawn in Hs; injection Hs as <- <-;
      cbn [fs set_fs emit logged] in *;
      split; [by exists node | split]
  end.
  - intros q Hq Hpresent. unfold present in *. cbn [fs set_fs emit logged].
    apply add_all_keeps. by rewrite Hother.
  - intros Hdir. exists w0. split; [done |]. exists node. split; [| done].
    apply add_all_from in Hnode as [Hnode|Hnode]; [| done].
    rewrite Hgone in Hnode; done.
Qed.

Lemma main_Ok_layout (w w' : World) (u : unit) :
  main P w = (Ok u, w') -> Forall (present w') layout.
Proof.
  unfold main. intros H. returned H.
  match goal with
    Hb : createBundle _ _ _ = _, Hw : createWrapperScript _ = _,
    Hr : createReadme _ = _, Ht : createTarball _ _ = _ |- _ =>
      destruct (createBundle_Ok_copies _ _ _ _ _ Hb)
        as (_ & (c1 & m1 & _ & Hbin) & (c2 & m2 & _ & Hso) & Hdeps & Hman);
      apply createWrapperScript_Ok in Hw as [Hwrapper Hk1];
      apply createReadme_Ok in Hr as [Hreadme Hk2];
      apply createTarball_Ok in Ht as (Htar & Hk3 & _)
  end.
  assert (Hkeep : forall q, q <> "dist/" +:+ TARBALL_NAME -> present w3 q ->
                            present (logged (JS.nl +:+ "=== Packaging complete ===") w6) q).
  { intros q Hq Hp. by apply Hk3, Hk2, Hk1. }
  unfold layout, present in *. cbn [fs logged] in *.
  repeat constructor.
  - apply Hkeep; [done |]. by eexists.
  - by apply Hkeep.
  - apply Hkeep; [done |]. by eexists.
  - by apply Hkeep.
  - apply Hk3, Hk2; done.
  - by apply Hk3.
  - done.
Qed.

(** X11: the packaging script ends with exit code 0 or 1; with 0 the
    bundle is complete: the binary, the dependencies, the native
    library, the manifest, the launcher, the README and the archive of
    the bundle are all there. *)
Theorem packaging_exit_code (w : World) :
  ((run_script (main P) w).1 = 0%Z /\ Forall (present (run_script (main P) w).2) layout) \/
  (run_script (main P) w).1 = 1%Z.
Proof.
  pose proof (exits_packaging w) as Hexit. unfold run_script.
  destruct (main P w) as [[u|e|c] w1] eqn:Hm; cbn [fst snd] in *.
  - left. split; [done |]. by apply main_Ok_layout with w u.
  - by right.
  - right. by apply Hexit.
Qed.

End PackagingExit.

(** ** The build (package-offline-bundle.ts) *)

Section Build.
Import Sys PackageBundle.
Local Open Scope sys_scope.
Variable P : Platform.

Lemma no_slash_whole (e : string) :
  JS.includes e "/" = false -> whole Path.slash e.
Proof.
  unfold whole. induction e as [|a e IH]; [done |]. intros H.
  unfold JS.includes in H; fold JS.includes in H.
  apply orb_false_iff in H as [Ha H].
  destruct (Ascii.eqb_spec a Path.slash) as [->|Hne].
  - cbn in Ha. by destruct e.
  - cbn [JS.split]. apply Ascii.eqb_neq in Hne. by rewrite Hne, IH.
Qed.

Lemma elem_of_children (d e : string) (f : gmap string Node) :
  e ∈ children d f -> JS.includes e "/" = false /\ is_Some (f !! (d +:+ "/" +:+ e)).
Proof.
  unfold children. intros ([k n] & Hin & H)%list_elem_of_omap. simpl in H.
  apply elem_of_map_to_list in Hin.
  destruct (strip d k) as [rest|] eqn:Hs; [| done].
  apply strip_Some in Hs as ->.
  destruct (JS.includes rest "/") eqn:Hi; [done |]. injection H as <-. by split.
Qed.

(** X12: when [buildOpencode] returns, it returns the path of an entry
    of packages/opencode/dist whose name mentions linux and x64 and
    neither baseline nor musl, and that entry exists. *)
Theorem buildOpencode_result (w w' : World) (buildDir : string) :
  buildOpencode P w = (Ok buildDir, w') ->
  exists e,
    buildDir = "packages/opencode/dist/" +:+ e /\
    JS.includes e "linux" = true /\ JS.includes e "x64" = true /\
    JS.includes e "baseline" = false /\ JS.includes e "musl" = false /\
    JS.includes e "/" = false /\
    present w' buildDir.
Proof.
  unfold buildOpencode. cbv zeta. intros H. returned H.
  destruct (JS.find isLinuxX64Dir a1) as [e|] eqn:Hfind; [| done]. returned H.
  apply find_Some_iff in Hfind as (before & after & -> & Hpred & _).
  unfold isLinuxX64Dir in Hpred.
  apply andb_true_iff in Hpred as [[[Hlinux Hx64]%andb_true_iff Hbase]%andb_true_iff Hmusl].
  apply negb_true_iff in Hbase, Hmusl.
  unfold fs_readdir in Hstep1.
  destruct (fs w1 !! "packages/opencode/dist") as [[|c m]|]; [| done | done].
  injection Hstep1 as Hchildren <-.
  assert (He : e ∈ children "packages/opencode/dist" (fs w1)).
  { rewrite Hchildren. apply elem_of_app. right. left. }
  apply elem_of_children in He as [Hslash Hthere].
  assert (Hjoin : Path.join ["packages/opencode/dist"; e] = "packages/opencode/dist/" +:+ e).
  { rewrite join_clean; [done | split; [by vm_compute | reflexivity] |].
    unfold clean. rewrite (no_slash_whole e Hslash).
    repeat constructor; intros ->; done. }
  exists e. rewrite Hjoin. by repeat split.
Qed.

End Build.

(** ** A bundle that could not be assembled has no manifest *)

Section Absence.
Import Sys.
Variable q : string.










End Absence.



Section BundleFailure.
Import Sys PackageBundle.
Local Open Scope sys_scope.
Variable P : Platform.


End BundleFailure.

(** ** The archive of the bundle, and the clangd release *)

Section Archive.
Import Sys PackageBundle.
Variable P : Platform.

(** X14: a stale archive is never taken for a new one. When
    [createTarball] returns and no directory had the name of the
    archive, the archive that is there was written by the [tar] of this
    run, which exited with 0. *)
Theorem createTarball_fresh (w w' : World) (u : unit) :
  createTarball P w = (Ok u, w') ->
  fs w !! "dist/opencode-offline-linux-x64.tar.gz" <> Some Dir ->
  exists w0 node,
    let proc := run P ["tar"; "-czf"; "opencode-offline-linux-x64.tar.gz";
                       "opencode-offline-linux-x64"] (Some "dist") w0 in
    exitCode proc = 0%Z /\
    ("dist/opencode-offline-linux-x64.tar.gz", node) ∈ files proc /\
    fs w' !! "dist/opencode-offline-linux-x64.tar.gz" = Some node.
Proof.
  intros H Hdir. apply createTarball_Ok in H as (_ & _ & H).
  destruct (H Hdir) as (w0 & Hexit & node & Hin & Hnode).
  by exists w0, node.
Qed.

End Archive.

Section Clangd.
Import Sys DownloadDeps.
Local Open Scope sys_scope.
Variable P : Platform.




End Clangd.

(** ** The properties above, on the sample platform *)

Section SampleRuns.
Import Sys.


Lemma downloadRipgrep_leaves_witness :
  let w' := (DownloadDeps.downloadRipgrep (Sample.platform Sample.no_env) Sample.start).2 in
  "14.1.1" = "14.1.1" /\
  fs w' !! "dist/offline-deps/ripgrep-14.1.1-x86_64-unknown-linux-musl.tar.gz" = None /\
  (fs w' !! "dist/offline-deps/ripgrep/rg" = Some Dir \/
   executable w' "dist/offline-deps/ripgrep/rg").
Proof.
  intros w'.
  apply (downloadRipgrep_leaves (Sample.platform Sample.no_env) Sample.start w' "14.1.1").
  vm_compute. reflexivity.
Defined.

Lemma downloadRustAnalyzer_leaves_witness :
  let P := Sample.platform Sample.no_env in
  let w' := (DownloadDeps.downloadRustAnalyzer P Sample.start).2 in
  (exists w0 response release,
     net P "https://api.github.com/repos/rust-lang/rust-analyzer/releases/latest" w0
       = Some response /\
     json response = Some release /\ "2024-01-08" = tag_name release) /\
  (exists w0,
     let proc := run P ["gunzip"; "-c"; "dist/offline-deps/rust-analyzer.gz"] None w0 in
     exitCode proc = 0%Z /\
     fs w' !! "dist/offline-deps/lsp/rust-analyzer/bin/rust-analyzer"
       = Some (File (stdout proc) 493)) /\
  fs w' !! "dist/offline-deps/rust-analyzer.gz" = None.
Proof.
  intros P w'.
  apply (downloadRustAnalyzer_leaves P Sample.start w' "2024-01-08").
  vm_compute. reflexivity.
Defined.



Lemma buildOpencode_result_witness :
  let P := Sample.platform Sample.no_env in
  exists e,
    "packages/opencode/dist/opencode-linux-x64" = "packages/opencode/dist/" +:+ e /\
    JS.includes e "linux" = true /\ JS.includes e "x64" = true /\
    JS.includes e "baseline" = false /\ JS.includes e "musl" = false /\
    JS.includes e "/" = false /\
    present (PackageBundle.buildOpencode P Sample.start).2
      "packages/opencode/dist/opencode-linux-x64".
Proof.
  intros P.
  apply (buildOpencode_result P Sample.start (PackageBundle.buildOpencode P Sample.start).2).
  vm_compute. reflexivity.
Defined.




Lemma createTarball_fresh_witness :
  let P := Sample.platform Sample.no_env in
  exists w0 node,
    let proc := run P ["tar"; "-czf"; "opencode-offline-linux-x64.tar.gz";
                       "opencode-offline-linux-x64"] (Some "dist") w0 in
    exitCode proc = 0%Z /\
    ("dist/opencode-offline-linux-x64.tar.gz", node) ∈ files proc /\
    fs (PackageBundle.createTarball P Sample.start).2
      !! "dist/opencode-offline-linux-x64.tar.gz" = Some node.
Proof.
  intros P.
  apply (createTarball_fresh P Sample.start (PackageBundle.createTarball P Sample.start).2 tt).
  - vm_compute. reflexivity.
  - vm_compute. discriminate.
Defined.

End SampleRuns.

(** ** The packaging script stays on the machine *)

Section PackagingTrace.
Import Sys PackageBundle.
Local Open Scope sys_scope.
Variable P : Platform.

(** X16: the packaging script never fetches anything. Whatever happens,
    the only commands it runs are [bun install], the build script and
    [tar -czf] of the bundle, and every file it writes itself lies in
    the bundle directory. *)
Theorem packaging_stays_local (w : World) :
  exists new, grows new w (main P w).2 /\
              Forall (fun e => packaging_event e = true) new.
Proof.
  assert (H : quiet (fun e => packaging_event e = false) (main P)).
  { unfold main, buildOpencode, createBundle, createWrapperScript, createReadme,
      createTarball, set_property.
    cbv zeta.
    repeat first
      [ quiet_step ltac:(by vm_compute)
      | lazymatch goal with |- quiet _ (match ?x with _ => _ end) => destruct x end ]. }
  destruct (H w) as (new & Hg & Hq). exists new. split; [done |].
  eapply Forall_impl; [exact Hq |]. intros e He. simpl in He.
  by destruct (packaging_event e).
Qed.

End PackagingTrace.
